(** * GRAPH-API: DMARC report mail processing over the MS Graph API

    A shallow embedding of [graphapi-dmarc-mail.py].  The Python values that
    the program handles are the values [json.loads] produces, so they are
    modelled by the type [json]; exceptions are explicit ([result]); the
    [Graph] object and the outside world (HTTP endpoints, the clock, standard
    output) are threaded through a state-and-exception monad [M]. *)

From Stdlib Require Import String Ascii List ZArith Lia Bool.
From Stdlib.Strings Require Import Byte.
From Stdlib Require Import DecimalString.
Import ListNotations.
Local Open Scope string_scope.
Local Open Scope Z_scope.
Local Set Warnings "-register-all".

(** ** Python values and exceptions *)

Inductive exn : Type :=
| TypeError
| KeyError
| IndexError
| AttributeError
| ValueError
| OverflowError
| OtherError (name : string).

Inductive result (A : Type) : Type :=
| Ok (a : A)
| Raise (e : exn).
Arguments Ok {A} a.
Arguments Raise {A} e.

Definition rbind {A B} (r : result A) (k : A -> result B) : result B :=
  match r with
  | Ok a => k a
  | Raise e => Raise e
  end.

(** The values [json.loads] returns: [None], [bool], [int], [str], [list] and
    [dict] (a dict keeps its items in insertion order, keys distinct).  JSON
    numbers with a fraction are not represented. *)
Inductive json : Type :=
| JNull
| JBool (b : bool)
| JNum (n : Z)
| JStr (s : string)
| JArr (l : list json)
| JObj (d : list (string * json)).

Definition bytes := list byte.

(** Truth value of an object ([if x], [not x], [x and y]). *)
Definition truthy (v : json) : bool :=
  match v with
  | JNull => false
  | JBool b => b
  | JNum n => negb (n =? 0)
  | JStr s => negb (s =? "")%string
  | JArr l => match l with [] => false | _ :: _ => true end
  | JObj d => match d with [] => false | _ :: _ => true end
  end.

(** [v is None] *)
Definition is_None (v : json) : bool :=
  match v with JNull => true | _ => false end.

(** [v == s] for a [str] literal or [str] attribute [s]. *)
Definition py_eq_str (v : json) (s : string) : bool :=
  match v with
  | JStr t => (t =? s)%string
  | _ => false
  end.

Fixpoint dict_get (d : list (string * json)) (k : string) : option json :=
  match d with
  | [] => None
  | (k', v) :: d' => if (k' =? k)%string then Some v else dict_get d' k
  end.

(** [v[k]] for a [str] key [k]. *)
Definition py_getitem (v : json) (k : string) : result json :=
  match v with
  | JObj d => match dict_get d k with
              | Some x => Ok x
              | None => Raise KeyError
              end
  | _ => Raise TypeError
  end.

Definition chars (s : string) : list json :=
  map (fun c => JStr (String c EmptyString)) (list_ascii_of_string s).

(** [v[0]] *)
Definition py_index0 (v : json) : result json :=
  match v with
  | JArr (a :: _) => Ok a
  | JArr [] => Raise IndexError
  | JStr s => match chars s with
              | c :: _ => Ok c
              | [] => Raise IndexError
              end
  | JObj _ => Raise KeyError
  | _ => Raise TypeError
  end.

(** The sequence [for x in v] runs over. *)
Definition py_iter (v : json) : result (list json) :=
  match v with
  | JArr l => Ok l
  | JObj d => Ok (map (fun kv => JStr (fst kv)) d)
  | JStr s => Ok (chars s)
  | _ => Raise TypeError
  end.

(** ** [str.split] with a one-character separator *)

Fixpoint split (sep : ascii) (s : string) : list string :=
  match s with
  | EmptyString => [EmptyString]
  | String c rest =>
      if Ascii.eqb c sep then EmptyString :: split sep rest
      else match split sep rest with
           | p :: ps => String c p :: ps
           | [] => [String c EmptyString]
           end
  end.

(** [get_extention] (nested in [process_dmarc_mail_items], lines 104-108). *)
Definition get_extention (name : json) : result json :=
  match name with
  | JNull => Ok JNull
  | JStr s =>
      let parts := split "."%char s in
      match nth_error parts (length parts - 1) with
      | Some p => Ok (JStr p)
      | None => Raise IndexError
      end
  | _ => Raise AttributeError
  end.

(** ** Library functions

    Functions of the Python standard library that the program calls and whose
    code is not part of the repository.  A call that raises returns [Raise]. *)

Record ZipInfo : Type := { filename : string }.

(** An opened [zipfile.ZipFile]: its members in the order of the listing,
    each with what reading it gives, its bytes or the exception raised. *)
Record ZipFile : Type := {
  members : list (ZipInfo * result bytes)
}.

(** [zipfile.filelist] *)
Definition filelist (zipfile : ZipFile) : list ZipInfo :=
  map fst (members zipfile).

(** [zipfile.getinfo(name)]: [NameToInfo] is filled in the order of the
    listing, so a name borne by several members is the last of them. *)
Definition getinfo (zipfile : ZipFile) (name : string)
  : option (ZipInfo * result bytes) :=
  find (fun member => (filename (fst member) =? name)%string)
       (rev (members zipfile)).

(** [zipfile.read(name)] for a [str]: the member is looked up by name. *)
Definition read (zipfile : ZipFile) (name : string) : result bytes :=
  match getinfo zipfile name with
  | Some member => snd member
  | None => Raise KeyError
  end.

Class PyLib : Type := {
  (** [str(v)] for a value that is not a [str] *)
  py_repr : json -> string;
  (** [base64.b64decode(s)] for a [str] *)
  b64decode : string -> result bytes;
  (** [gzip.decompress(data)] *)
  gzip_decompress : bytes -> result bytes;
  (** [ZipFile(io.BytesIO(data))] *)
  ZipFile_open : bytes -> result ZipFile;
  (** [datetime.strptime(date_string, format)], in microseconds *)
  strptime : string -> string -> result Z;
  (** [str(d)] for a [datetime] *)
  str_datetime : Z -> string;
  (** [str(b)] for [bytes] *)
  str_bytes : bytes -> string
}.

(** ** The outside world *)

Inductive request : Type :=
| POST (url : string) (data : list (string * string))
| GET (url : string) (headers : list (string * string))
| DELETE (url : string) (headers : list (string * string)).

(** A [requests.Response]: [loads_text] is [json.loads(response.text)]. *)
Record response : Type := {
  status_code : Z;
  loads_text : result json
}.

(** What the program has done to the world so far, oldest first. *)
Inductive event : Type :=
| Request (r : request)
| Now
| Stdout (line : string).

(** The world answers a request, and tells the time (what [datetime.now()]
    reads, in microseconds since [1970-01-01 00:00:00]), as a function of
    everything that happened before.  Every request is answered: connection
    errors of [requests] are outside the model. *)
Class World : Type := {
  now : list event -> Z;
  respond : list event -> request -> response
}.

(** ** The [Graph] object *)

Record Graph : Type := mkGraph {
  _token : json;
  _token_expires : option Z;
  _folder_id : json;
  client_id : string;
  client_secret : string;
  tenant_id : string;
  mailbox : string;
  mailbox_folder : string
}.

Definition set_token (v : json) (g : Graph) : Graph :=
  mkGraph v (_token_expires g) (_folder_id g) (client_id g) (client_secret g)
          (tenant_id g) (mailbox g) (mailbox_folder g).

Definition set_token_expires (v : option Z) (g : Graph) : Graph :=
  mkGraph (_token g) v (_folder_id g) (client_id g) (client_secret g)
          (tenant_id g) (mailbox g) (mailbox_folder g).

Definition set_folder_id (v : json) (g : Graph) : Graph :=
  mkGraph (_token g) (_token_expires g) v (client_id g) (client_secret g)
          (tenant_id g) (mailbox g) (mailbox_folder g).

(** A [SectionProxy] of [configparser]: for an option that is set, what
    reading it gives, its value or the exception its interpolation raises. *)
Definition SectionProxy := string -> option (result string).

(** [settings[key]] *)
Definition settings_get (settings : SectionProxy) (key : string) : result string :=
  match settings key with
  | Some v => v
  | None => Raise KeyError
  end.

(** [Graph.__init__] (lines 32-41). *)
Definition Graph_init (config : SectionProxy) : result Graph :=
  rbind (settings_get config "clientId") (fun cid =>
  rbind (settings_get config "clientSecret") (fun secret =>
  rbind (settings_get config "tenantId") (fun tenant =>
  rbind (settings_get config "mailbox") (fun mbox =>
  rbind (settings_get config "mailbox_folder") (fun folder =>
  Ok (mkGraph JNull None JNull cid secret tenant mbox folder)))))).

(** ** The monad: the object, the history of the world, and exceptions *)

Record state : Type := mkState {
  self : Graph;
  trace : list event
}.

Definition M (A : Type) : Type := state -> result A * state.

Definition ret {A} (a : A) : M A := fun s => (Ok a, s).

Definition bind {A B} (c : M A) (k : A -> M B) : M B :=
  fun s => match c s with
           | (Ok a, s') => k a s'
           | (Raise e, s') => (Raise e, s')
           end.

Definition lift {A} (r : result A) : M A := fun s => (r, s).

(** [try: c except Exception: h]: what [c] did before it raised stays done. *)
Definition try_except {A} (c : M A) (h : exn -> M A) : M A :=
  fun s => match c s with
           | (Ok a, s') => (Ok a, s')
           | (Raise e, s') => h e s'
           end.

Definition get_self : M Graph := fun s => (Ok (self s), s).

Definition modify_self (f : Graph -> Graph) : M unit :=
  fun s => (Ok tt, mkState (f (self s)) (trace s)).

Definition emit (e : event) (s : state) : state :=
  mkState (self s) (trace s ++ [e]).

Definition print (line : string) : M unit :=
  fun s => (Ok tt, emit (Stdout line) s).

Declare Scope py_scope.
Delimit Scope py_scope with py.
Notation "x <- c ;; k" := (bind c (fun x => k))
  (at level 100, c at next level, right associativity) : py_scope.
Notation "c ;; k" := (bind c (fun _ => k))
  (at level 100, right associativity) : py_scope.
Local Open Scope py_scope.

(** ** The program *)

Definition GRAPH_URL_format (path : string) : string :=
  "https://graph.microsoft.com" ++ path.

Definition LOGIN_URL_format (tenant : string) : string :=
  "https://login.microsoftonline.com/" ++ tenant ++ "/oauth2/v2.0/token".

(** The days a [timedelta] may hold, either way. *)
Definition timedelta_days : Z := 999999999.

(** [datetime.min] and [datetime.max], in microseconds since
    [1970-01-01 00:00:00]. *)
Definition datetime_min : Z := -62135596800000000.
Definition datetime_max : Z := 253402300799999999.

(** A number of seconds a [timedelta] can hold. *)
Definition timedelta_range (n : Z) : bool :=
  (- timedelta_days <=? n / 86400) && (n / 86400 <=? timedelta_days).

Definition datetime_range (t : Z) : bool :=
  (datetime_min <=? t) && (t <=? datetime_max).

(** [timedelta(seconds=v)], in microseconds. *)
Definition timedelta_seconds (v : json) : result Z :=
  match v with
  | JNum n => if timedelta_range n then Ok (n * 1000000) else Raise OverflowError
  | JBool b => Ok (if b then 1000000 else 0)
  | _ => Raise TypeError
  end.

(** [t + delta] for a [datetime] and a [timedelta]. *)
Definition datetime_plus (t delta : Z) : result Z :=
  if datetime_range (t + delta) then Ok (t + delta) else Raise OverflowError.

(** [d + timedelta(seconds=300)] at line 63, for an attribute [d] that is a
    [datetime] or [None].  The sum is taken as it is: an expiry within 300
    seconds of [datetime.max] is outside the model. *)
Definition datetime_add (d : option Z) (delta : Z) : result Z :=
  match d with
  | Some t => Ok (t + delta)
  | None => Raise TypeError
  end.

(** The result mapping [processed_items : dict[str, bytes]], in insertion
    order.  Keys are whatever [item['id']] is. *)
Definition pydict := list (json * bytes).

Definition hashable (k : json) : bool :=
  match k with
  | JArr _ | JObj _ => false
  | _ => true
  end.

(** Equality of dictionary keys ([True == 1] in Python). *)
Definition py_key_eqb (a b : json) : bool :=
  match a, b with
  | JNull, JNull => true
  | JBool x, JBool y => Bool.eqb x y
  | JNum x, JNum y => x =? y
  | JBool x, JNum y => (if x then 1 else 0) =? y
  | JNum x, JBool y => x =? (if y then 1 else 0)
  | JStr x, JStr y => (x =? y)%string
  | _, _ => false
  end.

Fixpoint dict_set (d : pydict) (k : json) (v : bytes) : pydict :=
  match d with
  | [] => [(k, v)]
  | (k', v') :: d' =>
      if py_key_eqb k' k then (k', v) :: d' else (k', v') :: dict_set d' k v
  end.

(** [d[k] = v] *)
Definition py_setitem (d : pydict) (k : json) (v : bytes) : result pydict :=
  if hashable k then Ok (dict_set d k v) else Raise TypeError.

(** [d.keys()] *)
Definition keys (d : pydict) : list json := map fst d.

(** [len(b)] printed in an f-string. *)
Definition str_len (b : bytes) : string :=
  NilEmpty.string_of_uint (Nat.to_uint (length b)).

Section Program.

Context {lib : PyLib} {world : World}.

(** [str(v)], as an f-string formats [v]. *)
Definition py_str (v : json) : string :=
  match v with
  | JStr s => s
  | _ => py_repr v
  end.

Definition datetime_now : M Z :=
  fun s => (Ok (now (trace s)), emit Now s).

Definition send (r : request) : M response :=
  fun s => (Ok (respond (trace s) r), emit (Request r) s).

Definition requests_post url data : M response := send (POST url data).
Definition requests_get url headers : M response := send (GET url headers).
Definition requests_delete url headers : M response := send (DELETE url headers).

(** [base64.b64decode(v)] *)
Definition base64_b64decode (v : json) : result bytes :=
  match v with
  | JStr s => b64decode s
  | _ => Raise TypeError
  end.

(** [datetime.strptime(v, format)] *)
Definition datetime_strptime (v : json) (format : string) : result Z :=
  match v with
  | JStr s => strptime s format
  | _ => Raise TypeError
  end.

(** [_get_fresh_token] (lines 47-61). *)
Definition _get_fresh_token : M unit :=
  g <- get_self ;;
  let endpoint := LOGIN_URL_format (tenant_id g) in
  let data := [ ("grant_type", "client_credentials");
                ("client_id", client_id g);
                ("client_secret", client_secret g);
                ("scope", "https://graph.microsoft.com/.default") ] in
  response <- requests_post endpoint data ;;
  if status_code response =? 200 then
    token_data <- lift (loads_text response) ;;
    access_token <- lift (py_getitem token_data "access_token") ;;
    modify_self (set_token access_token) ;;
    t <- datetime_now ;;
    expires_in <- lift (py_getitem token_data "expires_in") ;;
    delta <- lift (timedelta_seconds expires_in) ;;
    expires <- lift (datetime_plus t delta) ;;
    modify_self (set_token_expires (Some expires))
  else
    modify_self (set_token JNull).

(** [Graph.get_token] (lines 44-64). *)
Definition get_token : M unit :=
  g <- get_self ;;
  if is_None (_token g) then _get_fresh_token
  else
    limit <- lift (datetime_add (_token_expires g) (300 * 1000000)) ;;
    t <- datetime_now ;;
    if limit >? t then _get_fresh_token else ret tt.

Definition authorization (g : Graph) : list (string * string) :=
  [ ("Authorization", "Bearer " ++ py_str (_token g)) ].

(** [Graph.api_get_request] (lines 66-74); [JNull] is [None]. *)
Definition api_get_request (endpoint : string) : M json :=
  g <- get_self ;;
  if negb (truthy (_token g)) then ret JNull
  else
    response <- requests_get endpoint (authorization g) ;;
    if negb (status_code response =? 200) then ret JNull
    else
      body <- lift (loads_text response) ;;
      lift (py_getitem body "value").

(** [Graph.api_delete_request] (lines 76-84). *)
Definition api_delete_request (endpoint : string) : M bool :=
  g <- get_self ;;
  if negb (truthy (_token g)) then ret false
  else
    response <- requests_delete endpoint (authorization g) ;;
    if negb (status_code response =? 204) then ret false
    else ret true.

(** The endpoints (lines 92, 136, 140 and 161). *)
Definition folders_url (g : Graph) : string :=
  GRAPH_URL_format ("/v1.0/users/" ++ mailbox g ++ "/mailFolders").

Definition messages_url (g : Graph) : string :=
  GRAPH_URL_format ("/v1.0/users/" ++ mailbox g ++ "/mailFolders/"
                    ++ py_str (_folder_id g) ++ "/messages").

Definition attachments_url (g : Graph) (id : json) : string :=
  GRAPH_URL_format ("/v1.0/users/" ++ mailbox g ++ "/messages/" ++ py_str id
                    ++ "/attachments").

Definition message_url (g : Graph) (id : json) : string :=
  GRAPH_URL_format ("/v1.0/users/" ++ mailbox g ++ "/messages/" ++ py_str id).

(** The loop of [get_folder_id] (lines 93-96) over the folders still to
    visit, with the current value of the local [folder_id]. *)
Fixpoint scan_folders (target : string) (folders : list json) (folder_id : json)
  : result json :=
  match folders with
  | [] => Ok folder_id
  | folder :: rest =>
      rbind (py_getitem folder "displayName") (fun name =>
      if py_eq_str name target then
        rbind (py_getitem folder "id") (fun id => scan_folders target rest id)
      else scan_folders target rest folder_id)
  end.

(** [Graph.get_folder_id] (lines 86-97). *)
Definition get_folder_id : M unit :=
  get_token ;;
  g <- get_self ;;
  if negb (truthy (_token g)) || truthy (_folder_id g) then ret tt
  else
    let endpoint := folders_url g in
    value <- api_get_request endpoint ;;
    folders <- lift (py_iter value) ;;
    folder_id <- lift (scan_folders (mailbox_folder g) folders JNull) ;;
    modify_self (set_folder_id folder_id).

(** [get_dmarc_xml], lines 123-128: the archive is open.  [None] is the
    value [None]. *)
Definition read_first_entry (zipfile : ZipFile) : M (option bytes) :=
  match filelist zipfile with
  | info :: _ =>
      let file_name := filename info in
      print ("File name: " ++ file_name) ;;
      ext <- lift (get_extention (JStr file_name)) ;;
      if py_eq_str ext "xml" then
        data <- lift (read zipfile file_name) ;; ret (Some data)
      else ret None
  | [] => ret None
  end.

(** [get_dmarc_xml], lines 114-132: the classification and the two
    branches. *)
Definition decode (content_type ext : json) (raw_data : bytes)
  : M (option bytes) :=
  if py_eq_str content_type "application/gzip" || py_eq_str ext "gz"
     || py_eq_str ext "gzip" then
    try_except
      (data <- lift (gzip_decompress raw_data) ;; ret (Some data))
      (fun _ => ret None)
  else if py_eq_str content_type "application/zip" || py_eq_str ext "zip" then
    try_except
      (zipfile <- lift (ZipFile_open raw_data) ;; read_first_entry zipfile)
      (fun _ => ret None)
  else ret None.

(** [get_dmarc_xml] (lines 110-132). *)
Definition get_dmarc_xml (attachment : json) : M (option bytes) :=
  name <- lift (py_getitem attachment "name") ;;
  ext <- lift (get_extention name) ;;
  content_type <- lift (py_getitem attachment "contentType") ;;
  content_bytes <- lift (py_getitem attachment "contentBytes") ;;
  raw_data <- lift (base64_b64decode content_bytes) ;;
  decode content_type ext raw_data.

(** The body of the loop of [process_dmarc_mail_items] (lines 138-152). *)
Definition process_item (item : json) (processed_items : pydict) : M pydict :=
  g <- get_self ;;
  received <- lift (py_getitem item "receivedDateTime") ;;
  d <- lift (datetime_strptime received "%Y-%m-%dT%H:%M:%SZ") ;;
  print ("Received: " ++ str_datetime d) ;;
  subject <- lift (py_getitem item "subject") ;;
  print ("Subject: " ++ py_str subject) ;;
  id <- lift (py_getitem item "id") ;;
  let attachments_endpoint := attachments_url g id in
  attachments <- api_get_request attachments_endpoint ;;
  if truthy attachments then
    attachment <- lift (py_index0 attachments) ;;
    if truthy attachment then
      name <- lift (py_getitem attachment "name") ;;
      print ("Name: " ++ py_str name) ;;
      content_type <- lift (py_getitem attachment "contentType") ;;
      print ("Content type: " ++ py_str content_type) ;;
      xml_data <- get_dmarc_xml attachment ;;
      match xml_data with
      | Some ((_ :: _) as data) =>
          key <- lift (py_getitem item "id") ;;
          processed_items' <- lift (py_setitem processed_items key data) ;;
          print "Attachment data base64:" ;;
          print (str_bytes data) ;;
          ret processed_items'
      | _ => ret processed_items
      end
    else ret processed_items
  else ret processed_items.

Fixpoint for_items (items : list json) (processed_items : pydict) : M pydict :=
  match items with
  | [] => ret processed_items
  | item :: rest =>
      processed_items' <- process_item item processed_items ;;
      for_items rest processed_items'
  end.

(** [Graph.process_dmarc_mail_items] (lines 99-155). *)
Definition process_dmarc_mail_items : M pydict :=
  get_folder_id ;;
  g <- get_self ;;
  let endpoint := messages_url g in
  value <- api_get_request endpoint ;;
  items <- lift (py_iter value) ;;
  for_items items [].

(** The line printed at line 163: the literal is not an f-string, so it is
    the same for every identifier. *)
Definition delete_failure_line : string := "Unable to delete processed item! {id}".

(** [Graph.delete_mail_items] (lines 157-163). *)
Fixpoint delete_mail_items (items : list json) : M unit :=
  match items with
  | [] => ret tt
  | id :: rest =>
      g <- get_self ;;
      let endpoint := message_url g id in
      deleted <- api_delete_request endpoint ;;
      (if negb deleted then print delete_failure_line else ret tt) ;;
      delete_mail_items rest
  end.

Fixpoint print_items (items : pydict) : M unit :=
  match items with
  | [] => ret tt
  | (id, xml_data) :: rest =>
      print ("ID: " ++ py_str id ++ ": Bytes: " ++ str_len xml_data) ;;
      print_items rest
  end.

(** [main] from line 172 on, for the [Graph] object in the state. *)
Definition main_graph : M unit :=
  items <- process_dmarc_mail_items ;;
  print_items items ;;
  delete_mail_items (keys items).

(** [main] (lines 166-179): [config] is what [config.read] makes of
    [config.cfg], the sections by name or the exception parsing raises (a
    file that is not there gives no section); the run starts from the
    history [tr]. *)
Definition main (config : result (string -> option SectionProxy)) (tr : list event)
  : result unit * list event :=
  match config with
  | Raise e => (Raise e, tr)
  | Ok sections =>
      match sections "graph-dmarc-mail" with
      | None => (Raise KeyError, tr)
      | Some settings =>
          match Graph_init settings with
          | Raise e => (Raise e, tr)
          | Ok graph =>
              let (r, s) := main_graph (mkState graph tr) in (r, trace s)
          end
      end
  end.

End Program.

(** ** Vocabulary of the properties *)

(** [contains c s]: the character [c] occurs in [s]. *)
Fixpoint contains (c : ascii) (s : string) : bool :=
  match s with
  | EmptyString => false
  | String c' rest => Ascii.eqb c' c || contains c rest
  end.

(** The token requests in a history: the POSTs. *)
Fixpoint token_requests (tr : list event) : nat :=
  match tr with
  | [] => 0
  | Request (POST _ _) :: tr' => S (token_requests tr')
  | _ :: tr' => token_requests tr'
  end.

(** The deletion attempts in a history: the URLs of the DELETEs, in order. *)
Fixpoint deletions (tr : list event) : list string :=
  match tr with
  | [] => []
  | Request (DELETE url _) :: tr' => url :: deletions tr'
  | _ :: tr' => deletions tr'
  end.


(** A folder of the listing: an object with a [displayName] and an [id]. *)
Definition is_folder (folder : json) : Prop :=
  exists name id,
    py_getitem folder "displayName" = Ok name /\ py_getitem folder "id" = Ok id.

Definition named (target : string) (folder : json) : bool :=
  match py_getitem folder "displayName" with
  | Ok name => py_eq_str name target
  | Raise _ => false
  end.

Definition id_of (folder : json) : json :=
  match py_getitem folder "id" with
  | Ok id => id
  | Raise _ => JNull
  end.

(** [resolveFolder]: the identifier of the last folder of the listing whose
    display name is the target, [JNull] (not found) when there is none. *)
Definition resolveFolder (target : string) (folders : list json) : json :=
  match find (named target) (rev folders) with
  | Some folder => id_of folder
  | None => JNull
  end.

(** Every failed deletion among the events that [tr'] adds to [tr] is
    reported: a DELETE answered with a status other than 204 is followed at
    once by the failure line. *)
Definition failures_reported `{World} (tr tr' : list event) : Prop :=
  forall pre url headers post,
    tr' = (pre ++ Request (DELETE url headers) :: post)%list ->
    (length tr <= length pre)%nat ->
    status_code (respond pre (DELETE url headers)) <> 204 ->
    exists post', post = Stdout delete_failure_line :: post'.

(** [preserves R c]: whatever [c] does, the state it leaves is related by
    [R] to the state it started from. *)
Definition preserves {A} (R : state -> state -> Prop) (c : M A) : Prop :=
  forall s, R s (snd (c s)).

(** [yields P c]: whenever [c] returns, what it returns satisfies [P]. *)
Definition yields {A} (P : A -> Prop) (c : M A) : Prop :=
  forall s a s', c s = (Ok a, s') -> P a.

(** No entry of the mapping holds an empty byte sequence. *)
Definition no_empty_value (d : pydict) : Prop :=
  Forall (fun entry => snd entry <> []) d.

(** What a computation leaves as it was. *)
Definition same_self (s s' : state) : Prop := self s' = self s.

Definition same_deletions (s s' : state) : Prop :=
  deletions (trace s') = deletions (trace s).

(** The attachment carries a gzip signal: its declared content type is
    [application/gzip], or its extension is [gz] or [gzip]. *)
Definition gzip_signal (content_type ext : json) : Prop :=
  content_type = JStr "application/gzip" \/ ext = JStr "gz" \/ ext = JStr "gzip".

(** The attachment carries a zip signal. *)
Definition zip_signal (content_type ext : json) : Prop :=
  content_type = JStr "application/zip" \/ ext = JStr "zip".

(** The attachment [attachment], as [get_dmarc_xml] reads it: its three
    members, the extension of its name and the decoded payload. *)
Record reads_as `{PyLib} (attachment content_type ext : json) (raw_data : bytes)
  : Prop := {
  reads_name : exists name,
      py_getitem attachment "name" = Ok name /\ get_extention name = Ok ext;
  reads_type : py_getitem attachment "contentType" = Ok content_type;
  reads_payload : exists content_bytes,
      py_getitem attachment "contentBytes" = Ok content_bytes
      /\ base64_b64decode content_bytes = Ok raw_data
}.

(** The options [Graph.__init__] reads, in the order it reads them. *)
Definition options : list string :=
  [ "clientId"; "clientSecret"; "tenantId"; "mailbox"; "mailbox_folder" ].

(** The request [_get_fresh_token] sends (lines 48-55). *)
Definition token_request (g : Graph) : request :=
  POST (LOGIN_URL_format (tenant_id g))
       [ ("grant_type", "client_credentials");
         ("client_id", client_id g);
         ("client_secret", client_secret g);
         ("scope", "https://graph.microsoft.com/.default") ].

(** A held token has an expiry. *)
Definition token_has_expiry (g : Graph) : Prop :=
  is_None (_token g) = true \/ exists expires, _token_expires g = Some expires.

(** The GETs in a history. *)
Fixpoint gets (tr : list event) : nat :=
  match tr with
  | [] => 0
  | Request (GET _ _) :: tr' => S (gets tr')
  | _ :: tr' => gets tr'
  end.

(** No two keys of the mapping are equal as dictionary keys. *)
Fixpoint distinct_keys (d : pydict) : Prop :=
  match d with
  | [] => True
  | (k, _) :: d' =>
      Forall (fun entry => py_key_eqb k (fst entry) = false) d' /\ distinct_keys d'
  end.

(** What one iteration of the loop may do to the mapping: nothing, or set
    one key to a byte sequence that is not empty. *)
Definition one_entry_more (d d' : pydict) : Prop :=
  d' = d \/ exists key data, data <> [] /\ d' = dict_set d key data.

(** The history only grew. *)
Definition extends (s s' : state) : Prop :=
  exists added, trace s' = (trace s ++ added)%list.

Definition same_gets (s s' : state) : Prop := gets (trace s') = gets (trace s).

Definition same_token_requests (s s' : state) : Prop :=
  token_requests (trace s') = token_requests (trace s).

(** ** Scenarios

    Values for the concrete runs below. *)

Module Fixture.

(** The report [<feedback/>]. *)
Definition xml : bytes :=
  [x3c; x66; x65; x65; x64; x62; x61; x63; x6b; x2f; x3e].

(** [gzip.compress(b'<feedback/>', mtime=0)] *)
Definition gz_raw : bytes :=
  [x1f; x8b; x08; x00; x00; x00; x00; x00; x02; x03; xb3; x49; x4b; x4d;
   x4d; x49; x4a; x4c; xce; xd6; xb7; x03; x00; x84; xb7; x0a; x3b; x0b;
   x00; x00; x00].

Definition gz_b64 : string :=
  "H4sIAAAAAAACA7NJS01NSUpMzta3AwCEtwo7CwAAAA==".

(** [gzip.compress(b'', mtime=0)] *)
Definition gz_empty_raw : bytes :=
  [x1f; x8b; x08; x00; x00; x00; x00; x00; x02; x03; x03; x00; x00; x00;
   x00; x00; x00; x00; x00; x00].

Definition gz_empty_b64 : string :=
  "H4sIAAAAAAACAwMAAAAAAAAAAAA=".

(** The text [not a gzip stream]. *)
Definition not_gz_raw : bytes :=
  [x6e; x6f; x74; x20; x61; x20; x67; x7a; x69; x70; x20; x73; x74; x72;
   x65; x61; x6d].

Definition not_gz_b64 : string :=
  "bm90IGEgZ3ppcCBzdHJlYW0=".

(** An archive that lists [report.xml]. *)
Definition zip_xml_raw : bytes :=
  [x50; x4b; x03; x04; x14; x00; x00; x00; x00; x00; x00; x00; x21; x00;
   x84; xb7; x0a; x3b; x0b; x00; x00; x00; x0b; x00; x00; x00; x0a; x00;
   x00; x00; x72; x65; x70; x6f; x72; x74; x2e; x78; x6d; x6c; x3c; x66;
   x65; x65; x64; x62; x61; x63; x6b; x2f; x3e; x50; x4b; x01; x02; x14;
   x03; x14; x00; x00; x00; x00; x00; x00; x00; x21; x00; x84; xb7; x0a;
   x3b; x0b; x00; x00; x00; x0b; x00; x00; x00; x0a; x00; x00; x00; x00;
   x00; x00; x00; x00; x00; x00; x00; x80; x01; x00; x00; x00; x00; x72;
   x65; x70; x6f; x72; x74; x2e; x78; x6d; x6c; x50; x4b; x05; x06; x00;
   x00; x00; x00; x01; x00; x01; x00; x38; x00; x00; x00; x33; x00; x00;
   x00; x00; x00].

Definition zip_xml_b64 : string :=
  "UEsDBBQAAAAAAAAAIQCEtwo7CwAAAAsAAAAKAAAAcmVwb3J0LnhtbDxmZWVkYmFjay8+UEsBAhQDFAAAAAAAAAAhAIS3CjsLAAAACwAAAAoAAAAAAAAAAAAAAIABAAAAAHJlcG9ydC54bWxQSwUGAAAAAAEAAQA4AAAAMwAAAAAA".

(** An archive that lists [readme.txt], then [report.xml]. *)
Definition zip_txt_xml_raw : bytes :=
  [x50; x4b; x03; x04; x14; x00; x00; x00; x00; x00; x00; x00; x21; x00;
   xac; x2a; x93; xd8; x02; x00; x00; x00; x02; x00; x00; x00; x0a; x00;
   x00; x00; x72; x65; x61; x64; x6d; x65; x2e; x74; x78; x74; x68; x69;
   x50; x4b; x03; x04; x14; x00; x00; x00; x00; x00; x00; x00; x21; x00;
   x84; xb7; x0a; x3b; x0b; x00; x00; x00; x0b; x00; x00; x00; x0a; x00;
   x00; x00; x72; x65; x70; x6f; x72; x74; x2e; x78; x6d; x6c; x3c; x66;
   x65; x65; x64; x62; x61; x63; x6b; x2f; x3e; x50; x4b; x01; x02; x14;
   x03; x14; x00; x00; x00; x00; x00; x00; x00; x21; x00; xac; x2a; x93;
   xd8; x02; x00; x00; x00; x02; x00; x00; x00; x0a; x00; x00; x00; x00;
   x00; x00; x00; x00; x00; x00; x00; x80; x01; x00; x00; x00; x00; x72;
   x65; x61; x64; x6d; x65; x2e; x74; x78; x74; x50; x4b; x01; x02; x14;
   x03; x14; x00; x00; x00; x00; x00; x00; x00; x21; x00; x84; xb7; x0a;
   x3b; x0b; x00; x00; x00; x0b; x00; x00; x00; x0a; x00; x00; x00; x00;
   x00; x00; x00; x00; x00; x00; x00; x80; x01; x2a; x00; x00; x00; x72;
   x65; x70; x6f; x72; x74; x2e; x78; x6d; x6c; x50; x4b; x05; x06; x00;
   x00; x00; x00; x02; x00; x02; x00; x70; x00; x00; x00; x5d; x00; x00;
   x00; x00; x00].

Definition zip_txt_xml_b64 : string :=
  "UEsDBBQAAAAAAAAAIQCsKpPYAgAAAAIAAAAKAAAAcmVhZG1lLnR4dGhpUEsDBBQAAAAAAAAAIQCEtwo7CwAAAAsAAAAKAAAAcmVwb3J0LnhtbDxmZWVkYmFjay8+UEsBAhQDFAAAAAAAAAAhAKwqk9gCAAAAAgAAAAoAAAAAAAAAAAAAAIABAAAAAHJlYWRtZS50eHRQSwECFAMUAAAAAAAAACEAhLcKOwsAAAALAAAACgAAAAAAAAAAAAAAgAEqAAAAcmVwb3J0LnhtbFBLBQYAAAAAAgACAHAAAABdAAAAAAA=".

(** An archive that lists nothing. *)
Definition zip_empty_raw : bytes :=
  [x50; x4b; x05; x06; x00; x00; x00; x00; x00; x00; x00; x00; x00; x00;
   x00; x00; x00; x00; x00; x00; x00; x00].

Definition zip_empty_b64 : string :=
  "UEsFBgAAAAAAAAAAAAAAAAAAAAAAAA==".

(** An archive that lists [report.xml] twice: [<a/>], then [<b/>]. *)
Definition zip_twice_raw : bytes :=
  [x50; x4b; x03; x04; x14; x00; x00; x00; x00; x00; x00; x00; x21; x00;
   xd4; x1c; xd1; x01; x04; x00; x00; x00; x04; x00; x00; x00; x0a; x00;
   x00; x00; x72; x65; x70; x6f; x72; x74; x2e; x78; x6d; x6c; x3c; x61;
   x2f; x3e; x50; x4b; x03; x04; x14; x00; x00; x00; x00; x00; x00; x00;
   x21; x00; x8d; xa2; x97; x03; x04; x00; x00; x00; x04; x00; x00; x00;
   x0a; x00; x00; x00; x72; x65; x70; x6f; x72; x74; x2e; x78; x6d; x6c;
   x3c; x62; x2f; x3e; x50; x4b; x01; x02; x14; x03; x14; x00; x00; x00;
   x00; x00; x00; x00; x21; x00; xd4; x1c; xd1; x01; x04; x00; x00; x00;
   x04; x00; x00; x00; x0a; x00; x00; x00; x00; x00; x00; x00; x00; x00;
   x00; x00; x80; x01; x00; x00; x00; x00; x72; x65; x70; x6f; x72; x74;
   x2e; x78; x6d; x6c; x50; x4b; x01; x02; x14; x03; x14; x00; x00; x00;
   x00; x00; x00; x00; x21; x00; x8d; xa2; x97; x03; x04; x00; x00; x00;
   x04; x00; x00; x00; x0a; x00; x00; x00; x00; x00; x00; x00; x00; x00;
   x00; x00; x80; x01; x2c; x00; x00; x00; x72; x65; x70; x6f; x72; x74;
   x2e; x78; x6d; x6c; x50; x4b; x05; x06; x00; x00; x00; x00; x02; x00;
   x02; x00; x70; x00; x00; x00; x58; x00; x00; x00; x00; x00].

Definition zip_twice_b64 : string :=
  "UEsDBBQAAAAAAAAAIQDUHNEBBAAAAAQAAAAKAAAAcmVwb3J0LnhtbDxhLz5QSwMEFAAAAAAAAAAhAI2ilwMEAAAABAAAAAoAAAByZXBvcnQueG1sPGIvPlBLAQIUAxQAAAAAAAAAIQDUHNEBBAAAAAQAAAAKAAAAAAAAAAAAAACAAQAAAAByZXBvcnQueG1sUEsBAhQDFAAAAAAAAAAhAI2ilwMEAAAABAAAAAoAAAAAAAAAAAAAAIABLAAAAHJlcG9ydC54bWxQSwUGAAAAAAIAAgBwAAAAWAAAAAAA".

Fixpoint bytes_eqb (a b : bytes) : bool :=
  match a, b with
  | [], [] => true
  | x :: a', y :: b' => Byte.eqb x y && bytes_eqb a' b'
  | _, _ => false
  end.

Fixpoint lookup_string {A} (rows : list (string * A)) (key : string) : option A :=
  match rows with
  | [] => None
  | (k, v) :: rows' => if (k =? key)%string then Some v else lookup_string rows' key
  end.

Fixpoint lookup_bytes {A} (rows : list (bytes * A)) (key : bytes) : option A :=
  match rows with
  | [] => None
  | (k, v) :: rows' => if bytes_eqb k key then Some v else lookup_bytes rows' key
  end.

Definition or_raise {A} (name : string) (o : option A) : result A :=
  match o with
  | Some a => Ok a
  | None => Raise (OtherError name)
  end.

(** An open archive of stored entries. *)
Definition archive (entries : list (string * bytes)) : ZipFile :=
  {| members := map (fun entry => ({| filename := fst entry |}, Ok (snd entry)))
                    entries |}.

(** The library, on the values of the scenarios: what Python 3 returns for
    them. *)
Definition lib : PyLib :=
  {| py_repr := fun v =>
       match v with
       | JNull => "None"
       | JBool true => "True"
       | JBool false => "False"
       | JNum n => NilZero.string_of_int (Z.to_int n)
       | JStr s => s
       | JArr _ => "[...]"
       | JObj _ => "{...}"
       end;
     b64decode := fun s =>
       or_raise "binascii.Error"
         (lookup_string [ (gz_b64, gz_raw); (gz_empty_b64, gz_empty_raw);
                          (not_gz_b64, not_gz_raw); (zip_xml_b64, zip_xml_raw);
                          (zip_txt_xml_b64, zip_txt_xml_raw);
                          (zip_empty_b64, zip_empty_raw);
                          (zip_twice_b64, zip_twice_raw) ] s);
     gzip_decompress := fun raw =>
       or_raise "gzip.BadGzipFile"
         (lookup_bytes [ (gz_raw, xml); (gz_empty_raw, []) ] raw);
     ZipFile_open := fun raw =>
       or_raise "zipfile.BadZipFile"
         (lookup_bytes
            [ (zip_xml_raw, archive [ ("report.xml", xml) ]);
              (zip_txt_xml_raw,
               archive [ ("readme.txt", [x68; x69]); ("report.xml", xml) ]);
              (zip_empty_raw, archive []);
              (zip_twice_raw,
               archive [ ("report.xml", [x3c; x61; x2f; x3e]);
                         ("report.xml", [x3c; x62; x2f; x3e]) ]) ] raw);
     strptime := fun date_string _ =>
       if (date_string =? "2024-05-01T06:30:00Z")%string
       then Ok 1714545000000000 else Raise ValueError;
     str_datetime := fun _ => "2024-05-01 06:30:00";
     str_bytes := fun _ => "b'<feedback/>'" |}.

(** The configuration. *)
Definition settings : SectionProxy :=
  lookup_string [ ("clientId", Ok "3f2a"); ("clientSecret", Ok "s3cr3t");
                  ("tenantId", Ok "contoso"); ("mailbox", Ok "dmarc@example.com");
                  ("mailbox_folder", Ok "DMARC") ].

Definition config (section : string) : option SectionProxy :=
  if (section =? "graph-dmarc-mail")%string then Some settings else None.

(** The object after [Graph.__init__], and the start of a run. *)
Definition graph : Graph :=
  mkGraph JNull None JNull "3f2a" "s3cr3t" "contoso" "dmarc@example.com" "DMARC".

Definition start : state := mkState graph [].

(** The object with a token acquired at [1714545000] for 3599 seconds, and
    the folder resolved. *)
Definition graph_ready : Graph :=
  mkGraph (JStr "eyJ0eXAi") (Some 1714548599000000) (JStr "AAMk-dmarc")
          "3f2a" "s3cr3t" "contoso" "dmarc@example.com" "DMARC".

Definition ready : state := mkState graph_ready [].

(** The mailbox. *)
Definition attachment (name content_type content_bytes : string) : json :=
  JObj [ ("@odata.type", JStr "#microsoft.graph.fileAttachment");
         ("name", JStr name); ("contentType", JStr content_type);
         ("contentBytes", JStr content_bytes) ].

Definition attachment_gz : json :=
  attachment "google.com!example.com!1714435200!1714521599.xml.gz"
             "application/octet-stream" gz_b64.

Definition attachment_gz_by_type : json :=
  attachment "report" "application/gzip" gz_b64.

Definition attachment_gz_empty : json :=
  attachment "empty.xml.gz" "application/gzip" gz_empty_b64.

Definition attachment_not_gz : json :=
  attachment "broken.xml.gz" "application/gzip" not_gz_b64.

Definition attachment_not_zip : json :=
  attachment "broken.zip" "application/zip" not_gz_b64.

Definition attachment_zip_xml : json :=
  attachment "report.zip" "application/zip" zip_xml_b64.

Definition attachment_zip_txt_xml : json :=
  attachment "report.zip" "application/octet-stream" zip_txt_xml_b64.


Definition message (id subject : string) : json :=
  JObj [ ("id", JStr id); ("receivedDateTime", JStr "2024-05-01T06:30:00Z");
         ("subject", JStr subject) ].

Definition message_empty : json := message "msg-3" "Report domain: example.net".

Definition folders : list json :=
  [ JObj [ ("id", JStr "AAMk-inbox"); ("displayName", JStr "Inbox") ];
    JObj [ ("id", JStr "AAMk-dmarc"); ("displayName", JStr "DMARC") ];
    JObj [ ("id", JStr "AAMk-sent"); ("displayName", JStr "Sent Items") ] ].

Definition listing (value : list json) : response :=
  {| status_code := 200; loads_text := Ok (JObj [ ("value", JArr value) ]) |}.

Definition no_content (status : Z) : response :=
  {| status_code := status; loads_text := Raise (OtherError "json.JSONDecodeError") |}.

Definition token_response : response :=
  {| status_code := 200;
     loads_text := Ok (JObj [ ("token_type", JStr "Bearer"); ("expires_in", JNum 3599);
                              ("access_token", JStr "eyJ0eXAi") ]) |}.

Definition graph_users : string :=
  "https://graph.microsoft.com/v1.0/users/dmarc@example.com".

(** The endpoints: [messages] is the answer to the message listing. *)
Definition answer (messages : response) (r : request) : response :=
  match r with
  | POST url _ =>
      if (url =? "https://login.microsoftonline.com/contoso/oauth2/v2.0/token")%string
      then token_response else no_content 404
  | GET url _ =>
      match lookup_string
              [ (graph_users ++ "/mailFolders", listing folders);
                (graph_users ++ "/mailFolders/AAMk-dmarc/messages", messages);
                (graph_users ++ "/messages/msg-1/attachments", listing [attachment_gz]);
                (graph_users ++ "/messages/msg-2/attachments",
                 listing [attachment_zip_txt_xml]);
                (graph_users ++ "/messages/msg-3/attachments",
                 listing [attachment_gz_empty]);
                (graph_users ++ "/messages/msg-4/attachments",
                 listing [attachment_zip_xml]) ] url with
      | Some r => r
      | None => no_content 404
      end
  | DELETE url _ =>
      if (url =? graph_users ++ "/messages/msg-1")%string
      then no_content 204 else no_content 404
  end.

Definition inbox : list json :=
  [ message "msg-1" "Report domain: example.com";
    message "msg-2" "Report domain: example.org";
    message_empty;
    message "msg-4" "Report domain: example.info" ].

(** Every event takes a second; the run starts at [2024-05-01 06:30:00]. *)
Definition clock (tr : list event) : Z :=
  1714545000000000 + 1000000 * Z.of_nat (length tr).

(** The world where every endpoint answers. *)
Definition world : World :=
  {| now := clock; respond := fun _ => answer (listing inbox) |}.

(** The world where the message listing is answered with status 503. *)
Definition world_down : World :=
  {| now := clock; respond := fun _ => answer (no_content 503) |}.

(** An attached message: it has no [contentBytes]. *)
Definition attachment_item : json :=
  JObj [ ("@odata.type", JStr "#microsoft.graph.itemAttachment");
         ("name", JStr "Fwd: report.gz"); ("contentType", JNull) ].

(** A payload that is not base64. *)
Definition attachment_not_b64 : json :=
  attachment "report.xml.gz" "application/gzip" "abc".


(** A message whose date has a fraction of a second. *)
Definition message_bad_date : json :=
  JObj [ ("id", JStr "msg-7"); ("receivedDateTime", JStr "2024-05-01T06:30:00.5Z");
         ("subject", JStr "Report domain: example.com") ].

(** The world where every listing is empty. *)
Definition world_empty : World :=
  {| now := clock;
     respond := fun _ r =>
       match r with
       | GET _ _ => listing []
       | _ => answer (listing inbox) r
       end |}.

(** The world where the token request is refused. *)
Definition world_refused : World :=
  {| now := clock;
     respond := fun _ r =>
       match r with
       | POST _ _ => no_content 401
       | _ => answer (listing inbox) r
       end |}.

(** The world where the token answer has no [expires_in]. *)
Definition world_no_expiry : World :=
  {| now := clock;
     respond := fun _ r =>
       match r with
       | POST _ _ =>
           {| status_code := 200;
              loads_text := Ok (JObj [ ("access_token", JStr "eyJ0eXAi") ]) |}
       | _ => answer (listing inbox) r
       end |}.

(** The world with no folder named [DMARC]. *)
Definition world_no_folder : World :=
  {| now := clock;
     respond := fun _ r =>
       match r with
       | GET url _ =>
           if (url =? graph_users ++ "/mailFolders")%string
           then listing [ JObj [ ("id", JStr "AAMk-inbox"); ("displayName", JStr "Inbox") ] ]
           else no_content 404
       | _ => answer (listing inbox) r
       end |}.

(** A configuration without [clientSecret]. *)
Definition settings_no_secret : SectionProxy :=
  lookup_string [ ("clientId", Ok "3f2a"); ("tenantId", Ok "contoso");
                  ("mailbox", Ok "dmarc@example.com"); ("mailbox_folder", Ok "DMARC") ].

(** A configuration with [clientSecret = s3%cr3t]: reading the option
    raises, the ['%'] is no interpolation. *)
Definition settings_percent : SectionProxy :=
  lookup_string [ ("clientId", Ok "3f2a");
                  ("clientSecret",
                   Raise (OtherError "configparser.InterpolationSyntaxError"));
                  ("tenantId", Ok "contoso"); ("mailbox", Ok "dmarc@example.com");
                  ("mailbox_folder", Ok "DMARC") ].

Definition config_percent (section : string) : option SectionProxy :=
  if (section =? "graph-dmarc-mail")%string then Some settings_percent else None.


(** The world where the token answer grants [10**12] seconds. *)
Definition world_long : World :=
  {| now := clock;
     respond := fun _ r =>
       match r with
       | POST _ _ =>
           {| status_code := 200;
              loads_text := Ok (JObj [ ("access_token", JStr "eyJ0eXAi");
                                       ("expires_in", JNum 1000000000000) ]) |}
       | _ => answer (listing inbox) r
       end |}.

Definition config_no_secret (section : string) : option SectionProxy :=
  if (section =? "graph-dmarc-mail")%string then Some settings_no_secret else None.

(** The world where the second folder of the listing has no [displayName]. *)
Definition world_malformed : World :=
  {| now := clock;
     respond := fun _ r =>
       match r with
       | GET url _ =>
           if (url =? graph_users ++ "/mailFolders")%string
           then listing [ JObj [ ("id", JStr "AAMk-inbox"); ("displayName", JStr "Inbox") ];
                          JObj [ ("id", JStr "AAMk-draft") ];
                          JObj [ ("id", JStr "AAMk-dmarc"); ("displayName", JStr "DMARC") ] ]
           else no_content 404
       | _ => answer (listing inbox) r
       end |}.

End Fixture.

(** ** Properties *)

Lemma py_eq_str_true v s : py_eq_str v s = true <-> v = JStr s.
Proof.
  destruct v; simpl; try (split; [discriminate | intros H; discriminate H]).
  rewrite String.eqb_eq. split; [intros -> | intros [= ->]]; reflexivity.
Qed.

Lemma split_nonempty sep s : split sep s <> [].
Proof.
  destruct s as [|c rest]; simpl; [discriminate|].
  destruct (Ascii.eqb c sep); [discriminate|].
  destruct (split sep rest); discriminate.
Qed.

Lemma nth_error_last {A} (l : list A) (d : A) :
  l <> [] -> nth_error l (length l - 1) = Some (last l d).
Proof.
  induction l as [|a l IH]; [congruence|]. intros _.
  destruct l as [|b l]; [reflexivity|].
  replace (length (a :: b :: l) - 1)%nat with (S (length (b :: l) - 1))
    by (simpl; lia).
  change (nth_error (b :: l) (length (b :: l) - 1) = Some (last (b :: l) d)).
  apply IH. discriminate.
Qed.

Lemma get_extention_last s :
  get_extention (JStr s) = Ok (JStr (last (split "."%char s) "")).
Proof.
  unfold get_extention.
  rewrite (nth_error_last _ ""%string (split_nonempty _ _)). reflexivity.
Qed.

Lemma split_no_sep sep s : contains sep s = false -> split sep s = [s].
Proof.
  induction s as [|c rest IH]; simpl; [reflexivity|].
  intros H. apply orb_false_iff in H as [Hc Hrest].
  rewrite Hc, (IH Hrest). reflexivity.
Qed.

(** A string with a separator in it splits into two parts at least. *)
Lemma split_sep_parts sep pre suf :
  exists p q ps, split sep (pre ++ String sep suf) = p :: q :: ps.
Proof.
  induction pre as [|c pre (p & q & ps & IH)]; simpl.
  - rewrite Ascii.eqb_refl.
    destruct (split sep suf) eqn:E; [destruct (split_nonempty _ _ E)|eauto].
  - rewrite IH. destruct (Ascii.eqb c sep); eauto.
Qed.

Lemma last_split_app sep pre suf :
  last (split sep (pre ++ String sep suf)) "" = last (split sep suf) ""%string.
Proof.
  induction pre as [|c pre IH]; simpl.
  - rewrite Ascii.eqb_refl.
    destruct (split sep suf) eqn:E; [destruct (split_nonempty _ _ E)|reflexivity].
  - destruct (split_sep_parts sep pre suf) as (p & q & ps & E).
    rewrite E in *. destruct (Ascii.eqb c sep); exact IH.
Qed.

Lemma get_extention_str_ok s : exists e, get_extention (JStr s) = Ok (JStr e).
Proof. eexists. apply get_extention_last. Qed.

Lemma bind_lift_ok {A B} (r : result A) (a : A) (k : A -> M B) s :
  r = Ok a -> bind (lift r) k s = k a s.
Proof. intros ->. reflexivity. Qed.

Lemma bind_print_eq {B} line (k : unit -> M B) s :
  bind (print line) k s = k tt (emit (Stdout line) s).
Proof. reflexivity. Qed.

Lemma bind_get_self_eq {B} (k : Graph -> M B) s : bind get_self k s = k (self s) s.
Proof. reflexivity. Qed.

Lemma bind_run_ok {A B} (c : M A) (k : A -> M B) s a s' :
  c s = (Ok a, s') -> bind c k s = k a s'.
Proof. intros H. unfold bind. rewrite H. reflexivity. Qed.

Lemma find_app {A} (p : A -> bool) (l1 l2 : list A) :
  find p (l1 ++ l2) = match find p l1 with
                      | Some x => Some x
                      | None => find p l2
                      end.
Proof.
  induction l1 as [|a l1 IH]; simpl; [reflexivity|].
  destruct (p a); [reflexivity|exact IH].
Qed.

Lemma find_none_iff {A} (p : A -> bool) (l : list A) :
  find p l = None <-> (forall x, In x l -> p x = false).
Proof.
  induction l as [|a l IH]; simpl.
  - split; [intros _ x []|reflexivity].
  - destruct (p a) eqn:E.
    + split; [discriminate|]. intros H. rewrite (H a (or_introl eq_refl)) in E.
      discriminate.
    + rewrite IH. split.
      * intros H x [<-|Hx]; [exact E|exact (H x Hx)].
      * intros H x Hx. apply H. right. exact Hx.
Qed.

Lemma gzip_signal_test content_type ext :
  gzip_signal content_type ext <->
  py_eq_str content_type "application/gzip" || py_eq_str ext "gz"
    || py_eq_str ext "gzip" = true.
Proof.
  unfold gzip_signal. rewrite !orb_true_iff, !py_eq_str_true. tauto.
Qed.

Lemma zip_signal_test content_type ext :
  zip_signal content_type ext <->
  py_eq_str content_type "application/zip" || py_eq_str ext "zip" = true.
Proof.
  unfold zip_signal. rewrite !orb_true_iff, !py_eq_str_true. tauto.
Qed.

Section Decoder.

Context {lib : PyLib}.

Lemma get_dmarc_xml_reads attachment content_type ext raw_data s :
  reads_as attachment content_type ext raw_data ->
  get_dmarc_xml attachment s = decode content_type ext raw_data s.
Proof.
  intros [(name & Hname & Hext) Htype (content_bytes & Hbytes & Hraw)].
  unfold get_dmarc_xml.
  rewrite (bind_lift_ok _ _ _ _ Hname), (bind_lift_ok _ _ _ _ Hext),
    (bind_lift_ok _ _ _ _ Htype), (bind_lift_ok _ _ _ _ Hbytes),
    (bind_lift_ok _ _ _ _ Hraw).
  reflexivity.
Qed.

Lemma decode_gzip content_type ext raw_data s :
  gzip_signal content_type ext ->
  decode content_type ext raw_data s =
  match gzip_decompress raw_data with
  | Ok data => (Ok (Some data), s)
  | Raise _ => (Ok None, s)
  end.
Proof.
  intros Hsig. apply gzip_signal_test in Hsig.
  unfold decode. rewrite Hsig. unfold try_except, bind, lift, ret.
  destruct (gzip_decompress raw_data); reflexivity.
Qed.

Lemma decode_zip content_type ext raw_data s :
  ~ gzip_signal content_type ext ->
  zip_signal content_type ext ->
  decode content_type ext raw_data s =
  try_except
    (zipfile <- lift (ZipFile_open raw_data) ;; read_first_entry zipfile)
    (fun _ => ret None) s.
Proof.
  intros Hgz Hzip. apply zip_signal_test in Hzip.
  rewrite gzip_signal_test in Hgz. apply not_true_is_false in Hgz.
  unfold decode. rewrite Hgz, Hzip. reflexivity.
Qed.

Lemma decode_unsupported content_type ext raw_data s :
  ~ gzip_signal content_type ext ->
  ~ zip_signal content_type ext ->
  decode content_type ext raw_data s = (Ok None, s).
Proof.
  intros Hgz Hzip. rewrite gzip_signal_test in Hgz. rewrite zip_signal_test in Hzip.
  apply not_true_is_false in Hgz, Hzip.
  unfold decode. rewrite Hgz, Hzip. reflexivity.
Qed.

Lemma gzip_signal_dec content_type ext :
  {gzip_signal content_type ext} + {~ gzip_signal content_type ext}.
Proof.
  destruct (py_eq_str content_type "application/gzip" || py_eq_str ext "gz"
            || py_eq_str ext "gzip") eqn:E.
  - left. apply gzip_signal_test, E.
  - right. rewrite gzip_signal_test, E. discriminate.
Qed.

Lemma zip_signal_dec content_type ext :
  {zip_signal content_type ext} + {~ zip_signal content_type ext}.
Proof.
  destruct (py_eq_str content_type "application/zip" || py_eq_str ext "zip") eqn:E.
  - left. apply zip_signal_test, E.
  - right. rewrite zip_signal_test, E. discriminate.
Qed.

(** What the zip branch does with an open archive whose listing starts
    with [info]: the name is printed, and only then the entry is read. *)
Lemma read_first_entry_cons zipfile info rest s :
  filelist zipfile = info :: rest ->
  read_first_entry zipfile s =
  let s' := emit (Stdout ("File name: " ++ filename info)) s in
  if py_eq_str (JStr (last (split "."%char (filename info)) "")) "xml" then
    match read zipfile (filename info) with
    | Ok data => (Ok (Some data), s')
    | Raise e => (Raise e, s')
    end
  else (Ok None, s').
Proof.
  intros Hlist. unfold read_first_entry. rewrite Hlist. cbv zeta.
  unfold bind at 1. unfold print at 1.
  rewrite (bind_lift_ok _ _ _ _ (get_extention_last _)).
  destruct (py_eq_str _ "xml"); [|reflexivity].
  unfold bind, lift, ret. destruct (read zipfile (filename info)); reflexivity.
Qed.

Lemma zip_branch_returns raw_data s :
  exists r s',
    try_except
      (zipfile <- lift (ZipFile_open raw_data) ;; read_first_entry zipfile)
      (fun _ => ret None) s = (Ok r, s').
Proof.
  unfold try_except, bind at 1, lift at 1.
  destruct (ZipFile_open raw_data) as [zipfile|e]; [|unfold ret; eauto].
  destruct (filelist zipfile) as [|info rest] eqn:Hlist.
  - unfold read_first_entry. rewrite Hlist. unfold ret. eauto.
  - rewrite (read_first_entry_cons _ _ _ _ Hlist). cbv zeta.
    destruct (py_eq_str _ "xml"); [|eauto].
    destruct (read zipfile (filename info)); unfold ret; eauto.
Qed.

Lemma decode_returns content_type ext raw_data s :
  exists r s', decode content_type ext raw_data s = (Ok r, s').
Proof.
  destruct (gzip_signal_dec content_type ext) as [Hgz|Hgz].
  - rewrite (decode_gzip _ _ _ _ Hgz). destruct (gzip_decompress raw_data); eauto.
  - destruct (zip_signal_dec content_type ext) as [Hzip|Hzip].
    + rewrite (decode_zip _ _ _ _ Hgz Hzip). apply zip_branch_returns.
    + rewrite (decode_unsupported _ _ _ _ Hgz Hzip). eauto.
Qed.

(** C1.  An attachment that carries a gzip signal -- the declared content
    type [application/gzip], or the extension [gz] or [gzip], either one
    alone -- and whose decoded payload [gzip.decompress] accepts, makes
    [get_dmarc_xml] return exactly the decompressed bytes (and do nothing
    else). *)
Theorem get_dmarc_xml_gzip attachment content_type ext raw_data data s :
  reads_as attachment content_type ext raw_data ->
  gzip_signal content_type ext ->
  gzip_decompress raw_data = Ok data ->
  get_dmarc_xml attachment s = (Ok (Some data), s).
Proof.
  intros Hreads Hsig Hdata.
  rewrite (get_dmarc_xml_reads _ _ _ _ _ Hreads), (decode_gzip _ _ _ _ Hsig), Hdata.
  reflexivity.
Qed.



(** C6.  For an attachment that reads as a payload [raw_data]:
    [get_dmarc_xml] returns, it never raises, whatever the payload; with a
    gzip signal and a payload [gzip.decompress] rejects, it returns [None];
    classified as zip with a payload [ZipFile] rejects, or with a first entry
    that [read] rejects, it returns [None]. *)
Theorem get_dmarc_xml_invalid attachment content_type ext raw_data s :
  reads_as attachment content_type ext raw_data ->
  (exists r s', get_dmarc_xml attachment s = (Ok r, s'))
  /\ (forall e, gzip_signal content_type ext ->
                gzip_decompress raw_data = Raise e ->
                get_dmarc_xml attachment s = (Ok None, s))
  /\ (forall e, ~ gzip_signal content_type ext -> zip_signal content_type ext ->
                ZipFile_open raw_data = Raise e ->
                get_dmarc_xml attachment s = (Ok None, s))
  /\ (forall zipfile info rest e,
         ~ gzip_signal content_type ext -> zip_signal content_type ext ->
         ZipFile_open raw_data = Ok zipfile ->
         filelist zipfile = info :: rest ->
         read zipfile (filename info) = Raise e ->
         get_dmarc_xml attachment s
         = (Ok None, emit (Stdout ("File name: " ++ filename info)) s)).
Proof.
  intros Hreads. rewrite (get_dmarc_xml_reads _ _ _ _ _ Hreads).
  split; [apply decode_returns|split; [|split]].
  - intros e Hsig Hbad. rewrite (decode_gzip _ _ _ _ Hsig), Hbad. reflexivity.
  - intros e Hgz Hzip Hbad. rewrite (decode_zip _ _ _ _ Hgz Hzip).
    unfold try_except, bind, lift. rewrite Hbad. reflexivity.
  - intros zipfile info rest e Hgz Hzip Hopen Hlist Hbad.
    rewrite (decode_zip _ _ _ _ Hgz Hzip).
    unfold try_except. rewrite (bind_lift_ok _ _ _ _ Hopen).
    rewrite (read_first_entry_cons _ _ _ _ Hlist). cbv zeta. rewrite Hbad.
    destruct (py_eq_str _ "xml"); reflexivity.
Qed.

End Decoder.

(** C3, as the code has it.  The extension of an absent name is absent; the
    extension of a name is what follows its last ['.']; the extension of a
    name without ['.'] is the whole name; and the extension of a name that
    is present is never absent. *)
Theorem get_extention_spec :
  get_extention JNull = Ok JNull
  /\ (forall pre suf, contains "." suf = false ->
        get_extention (JStr (pre ++ "." ++ suf)) = Ok (JStr suf))
  /\ (forall name, contains "." name = false ->
        get_extention (JStr name) = Ok (JStr name))
  /\ (forall name, exists ext, get_extention (JStr name) = Ok (JStr ext)).
Proof.
  split; [reflexivity|split; [|split]].
  - intros pre suf Hsuf. rewrite get_extention_last.
    change ("." ++ suf)%string with (String "."%char suf).
    rewrite last_split_app, (split_no_sep _ _ Hsuf). reflexivity.
  - intros name Hname. rewrite get_extention_last, (split_no_sep _ _ Hname).
    reflexivity.
  - exact get_extention_str_ok.
Qed.

Lemma token_requests_app tr1 tr2 :
  token_requests (tr1 ++ tr2) = (token_requests tr1 + token_requests tr2)%nat.
Proof.
  induction tr1 as [|[[]| |] tr1 IH]; simpl; rewrite ?IH; reflexivity.
Qed.

Lemma deletions_app tr1 tr2 :
  deletions (tr1 ++ tr2) = (deletions tr1 ++ deletions tr2)%list.
Proof.
  induction tr1 as [|[[]| |] tr1 IH]; simpl; rewrite ?IH; reflexivity.
Qed.

Lemma resolveFolder_last target pre folder post :
  named target folder = true ->
  (forall other, In other post -> named target other = false) ->
  resolveFolder target (pre ++ folder :: post) = id_of folder.
Proof.
  intros Hnamed Hpost. unfold resolveFolder.
  rewrite rev_app_distr. simpl rev. rewrite <- app_assoc, find_app.
  replace (find (named target) (rev post)) with (@None json).
  - simpl. rewrite Hnamed. reflexivity.
  - symmetry. apply find_none_iff. intros x Hx. apply Hpost, in_rev, Hx.
Qed.

Lemma resolveFolder_none target folders :
  (forall folder, In folder folders -> named target folder = false) ->
  resolveFolder target folders = JNull.
Proof.
  intros Hnone. unfold resolveFolder.
  replace (find (named target) (rev folders)) with (@None json); [reflexivity|].
  symmetry. apply find_none_iff. intros x Hx. apply Hnone, in_rev, Hx.
Qed.

Section Client.

Context {lib : PyLib} {world : World}.

Lemma api_get_request_answer endpoint s :
  truthy (_token (self s)) = true ->
  api_get_request endpoint s =
  let r := respond (trace s) (GET endpoint (authorization (self s))) in
  let s' := emit (Request (GET endpoint (authorization (self s)))) s in
  if status_code r =? 200 then
    (rbind (loads_text r) (fun body => py_getitem body "value"), s')
  else (Ok JNull, s').
Proof.
  intros Htoken. unfold api_get_request, bind at 1, get_self.
  rewrite Htoken. cbn [negb]. unfold bind at 1, requests_get, send. cbv zeta.
  destruct (status_code _ =? 200); cbn [negb]; [|reflexivity].
  unfold bind, lift, rbind. destruct (loads_text _); reflexivity.
Qed.

(** C8.  While no token is held, a GET returns [None] and a DELETE returns
    [False]; neither raises, and neither sends anything: the state, and
    with it the history of requests, is unchanged. *)
Theorem api_request_without_token endpoint s :
  _token (self s) = JNull ->
  api_get_request endpoint s = (Ok JNull, s)
  /\ api_delete_request endpoint s = (Ok false, s).
Proof.
  intros Htoken.
  unfold api_get_request, api_delete_request, bind, get_self.
  rewrite Htoken. split; reflexivity.
Qed.

Lemma fresh_token_requests s :
  token_requests (trace (snd (_get_fresh_token s)))
  = S (token_requests (trace s)).
Proof.
  unfold _get_fresh_token, bind at 1, get_self. cbv zeta.
  unfold bind at 1, requests_post, send.
  destruct (status_code _ =? 200).
  - unfold bind, lift, modify_self, datetime_now.
    destruct (loads_text _) as [token_data|e]; cbn -[token_requests];
      [|rewrite token_requests_app; simpl; lia].
    destruct (py_getitem token_data "access_token");
      cbn -[token_requests]; [|rewrite token_requests_app; simpl; lia].
    destruct (py_getitem token_data "expires_in") as [expires_in|e];
      cbn -[token_requests]; [|rewrite !token_requests_app; simpl; lia].
    destruct (timedelta_seconds expires_in) as [delta|e];
      cbn -[token_requests datetime_plus];
      [|rewrite !token_requests_app; simpl; lia].
    destruct (datetime_plus _ delta);
      cbn -[token_requests]; rewrite !token_requests_app; simpl; lia.
  - unfold modify_self. cbn -[token_requests].
    rewrite token_requests_app. simpl. lia.
Qed.


(** C5, as the code has it.  When a token is held and the message listing
    is answered with a status other than 200, [process_dmarc_mail_items]
    raises [TypeError]: it iterates over the [None] that [api_get_request]
    returned.  So does [get_folder_id], and with it
    [process_dmarc_mail_items], when the folder listing is answered with a
    status other than 200. *)
Theorem process_raises_on_failed_listing s s1 :
  (get_folder_id s = (Ok tt, s1) ->
   truthy (_token (self s1)) = true ->
   status_code (respond (trace s1)
                  (GET (messages_url (self s1)) (authorization (self s1)))) <> 200 ->
   process_dmarc_mail_items s
   = (Raise TypeError,
      emit (Request (GET (messages_url (self s1)) (authorization (self s1)))) s1))
  /\ (get_token s = (Ok tt, s1) ->
      truthy (_token (self s1)) = true ->
      truthy (_folder_id (self s1)) = false ->
      status_code (respond (trace s1)
                     (GET (folders_url (self s1)) (authorization (self s1)))) <> 200 ->
      let s2 := emit (Request (GET (folders_url (self s1)) (authorization (self s1)))) s1 in
      get_folder_id s = (Raise TypeError, s2)
      /\ process_dmarc_mail_items s = (Raise TypeError, s2)).
Proof.
  split.
  - intros Hfolder Htoken Hstatus.
    unfold process_dmarc_mail_items, bind at 1. rewrite Hfolder.
    unfold bind at 1, get_self. cbv zeta. unfold bind at 1.
    rewrite (api_get_request_answer _ _ Htoken). cbv zeta.
    apply Z.eqb_neq in Hstatus. rewrite Hstatus. reflexivity.
  - intros Htok Htoken Hcached Hstatus s2.
    assert (Hfolder : get_folder_id s = (Raise TypeError, s2)).
    { unfold get_folder_id, bind at 1. rewrite Htok.
      unfold bind at 1, get_self. rewrite Htoken, Hcached. cbn [negb orb].
      cbv zeta. unfold bind at 1.
      rewrite (api_get_request_answer _ _ Htoken). cbv zeta.
      apply Z.eqb_neq in Hstatus. rewrite Hstatus. reflexivity. }
    split; [exact Hfolder|].
    unfold process_dmarc_mail_items, bind at 1. rewrite Hfolder. reflexivity.
Qed.

(** An attachment listing answered with a status other than 200 is no data:
    the message is skipped and the loop goes on. *)
Lemma process_item_failed_attachments item processed_items s received d subject id :
  truthy (_token (self s)) = true ->
  py_getitem item "receivedDateTime" = Ok received ->
  datetime_strptime received "%Y-%m-%dT%H:%M:%SZ" = Ok d ->
  py_getitem item "subject" = Ok subject ->
  py_getitem item "id" = Ok id ->
  let s1 := emit (Stdout ("Subject: " ++ py_str subject))
              (emit (Stdout ("Received: " ++ str_datetime d)) s) in
  let request := GET (attachments_url (self s) id) (authorization (self s)) in
  status_code (respond (trace s1) request) <> 200 ->
  process_item item processed_items s = (Ok processed_items, emit (Request request) s1).
Proof.
  intros Htoken Hreceived Hd Hsubject Hid s1 request Hstatus.
  unfold process_item. rewrite bind_get_self_eq.
  rewrite (bind_lift_ok _ _ _ _ Hreceived), (bind_lift_ok _ _ _ _ Hd), bind_print_eq.
  rewrite (bind_lift_ok _ _ _ _ Hsubject), bind_print_eq.
  rewrite (bind_lift_ok _ _ _ _ Hid). cbv zeta.
  assert (Hget : api_get_request (attachments_url (self s) id) s1
                 = (Ok JNull, emit (Request request) s1)).
  { rewrite (api_get_request_answer _ s1 Htoken). cbv zeta.
    apply Z.eqb_neq in Hstatus. change (self s1) with (self s). fold request.
    rewrite Hstatus. reflexivity. }
  rewrite (bind_run_ok _ _ _ _ _ Hget). reflexivity.
Qed.

Lemma scan_folders_spec target folders folder_id :
  Forall is_folder folders ->
  scan_folders target folders folder_id
  = Ok (match find (named target) (rev folders) with
        | Some folder => id_of folder
        | None => folder_id
        end).
Proof.
  intros Hfolders. revert folder_id.
  induction Hfolders as [|folder rest (name & id & Hname & Hid) _ IH];
    intros folder_id; [reflexivity|].
  assert (Hnamed : named target folder = py_eq_str name target)
    by (unfold named; rewrite Hname; reflexivity).
  assert (Hidof : id_of folder = id) by (unfold id_of; rewrite Hid; reflexivity).
  cbn [scan_folders rev]. rewrite find_app, Hname. cbn [rbind find].
  rewrite Hnamed.
  destruct (py_eq_str name target).
  - rewrite Hid. cbn [rbind]. rewrite IH.
    destruct (find (named target) (rev rest)); rewrite ?Hidof; reflexivity.
  - rewrite IH. destruct (find (named target) (rev rest)); reflexivity.
Qed.

(** C7.  When a token is held, no folder identifier is cached yet, and the
    folder listing is answered with the folders [folders],
    [get_folder_id] sets [_folder_id] to [resolveFolder]: the identifier
    of the last folder whose display name equals the configured name --
    with distinct names, of the one folder that bears it -- and [None]
    when no display name equals it. *)
Theorem get_folder_id_resolves s s1 body folders :
  get_token s = (Ok tt, s1) ->
  truthy (_token (self s1)) = true ->
  truthy (_folder_id (self s1)) = false ->
  let request := GET (folders_url (self s1)) (authorization (self s1)) in
  let target := mailbox_folder (self s1) in
  status_code (respond (trace s1) request) = 200 ->
  loads_text (respond (trace s1) request) = Ok body ->
  py_getitem body "value" = Ok (JArr folders) ->
  Forall is_folder folders ->
  get_folder_id s
  = (Ok tt, mkState (set_folder_id (resolveFolder target folders) (self s1))
                    (trace s1 ++ [Request request]))
  /\ (forall pre folder post,
         folders = (pre ++ folder :: post)%list ->
         named target folder = true ->
         (forall other, In other post -> named target other = false) ->
         resolveFolder target folders = id_of folder)
  /\ (forall folder,
         In folder folders ->
         named target folder = true ->
         (forall other, In other folders -> named target other = true ->
                        other = folder) ->
         resolveFolder target folders = id_of folder)
  /\ ((forall folder, In folder folders -> named target folder = false) ->
      resolveFolder target folders = JNull).
Proof.
  intros Htok Htoken Hcached request target Hstatus Hbody Hvalue Hfolders.
  split; [|split; [|split]].
  - unfold get_folder_id, bind at 1. rewrite Htok.
    unfold bind at 1, get_self. rewrite Htoken, Hcached. cbn [negb orb].
    cbv zeta. unfold bind at 1.
    rewrite (api_get_request_answer _ _ Htoken). cbv zeta.
    fold request. rewrite Hstatus, Hbody. cbn [Z.eqb Pos.eqb rbind].
    rewrite Hvalue. unfold bind, lift, py_iter.
    rewrite (scan_folders_spec _ _ _ Hfolders). reflexivity.
  - intros pre folder post -> Hnamed Hpost.
    apply resolveFolder_last; assumption.
  - intros folder Hin Hnamed Hunique.
    unfold resolveFolder.
    destruct (find (named target) (rev folders)) as [found|] eqn:E.
    + apply find_some in E as [Hfound Hfound_named].
      apply in_rev in Hfound. rewrite (Hunique found Hfound Hfound_named).
      reflexivity.
    + rewrite find_none_iff in E. rewrite (E folder) in Hnamed;
        [discriminate|apply in_rev in Hin; exact Hin].
  - apply resolveFolder_none.
Qed.

End Client.

(** ** Frames: what a computation leaves as it was *)

Lemma bind_ok_inv {A B} (c : M A) (k : A -> M B) s b s' :
  bind c k s = (Ok b, s') ->
  exists a s1, c s = (Ok a, s1) /\ k a s1 = (Ok b, s').
Proof.
  unfold bind. destruct (c s) as [[a|e] s1]; [eauto|discriminate].
Qed.

Lemma app_split_at {A} (l1 l2 pre : list A) x post :
  (l1 ++ l2 = pre ++ x :: post)%list ->
  (length l1 <= length pre)%nat ->
  exists pre2, pre = (l1 ++ pre2)%list /\ l2 = (pre2 ++ x :: post)%list.
Proof.
  revert pre. induction l1 as [|a l1 IH]; intros pre Heq Hlen.
  - exists pre. split; [reflexivity|exact Heq].
  - destruct pre as [|b pre]; [simpl in Hlen; lia|].
    simpl in Heq. injection Heq as -> Heq.
    destruct (IH pre Heq) as (pre2 & -> & ->); [simpl in Hlen; lia|].
    exists pre2. split; reflexivity.
Qed.

Section Frame.

Context {lib : PyLib} {world : World}.

Variable R : state -> state -> Prop.
Hypothesis R_refl : forall s, R s s.
Hypothesis R_trans : forall s1 s2 s3, R s1 s2 -> R s2 s3 -> R s1 s3.
Hypothesis R_stdout : forall line s, R s (emit (Stdout line) s).
Hypothesis R_now : forall s, R s (emit Now s).
Hypothesis R_get : forall url headers s, R s (emit (Request (GET url headers)) s).

Lemma preserves_ret {A} (a : A) : preserves R (ret a).
Proof. intros s. apply R_refl. Qed.

Lemma preserves_lift {A} (r : result A) : preserves R (lift r).
Proof. intros s. apply R_refl. Qed.

Lemma preserves_get_self : preserves R get_self.
Proof. intros s. apply R_refl. Qed.

Lemma preserves_print line : preserves R (print line).
Proof. intros s. apply R_stdout. Qed.

Lemma preserves_bind {A B} (c : M A) (k : A -> M B) :
  preserves R c -> (forall a, preserves R (k a)) -> preserves R (bind c k).
Proof.
  intros Hc Hk s. unfold bind. specialize (Hc s).
  destruct (c s) as [[a|e] s1]; [|exact Hc].
  eapply R_trans; [exact Hc|apply Hk].
Qed.

Lemma preserves_try_except {A} (c : M A) (h : exn -> M A) :
  preserves R c -> (forall e, preserves R (h e)) -> preserves R (try_except c h).
Proof.
  intros Hc Hh s. unfold try_except. specialize (Hc s).
  destruct (c s) as [[a|e] s1]; [exact Hc|].
  eapply R_trans; [exact Hc|apply Hh].
Qed.

Ltac frame_with known :=
  repeat first
    [ known
    | apply preserves_ret | apply preserves_lift | apply preserves_get_self
    | apply preserves_print
    | apply preserves_bind; [|intros ?]
    | apply preserves_try_except; [|intros ?]
    | match goal with
      | |- preserves _ (if ?b then _ else _) => destruct b
      | |- preserves _ (match ?x with _ => _ end) => destruct x
      end
    | progress cbv zeta ].

Lemma preserves_requests_get url headers : preserves R (requests_get url headers).
Proof. intros s. apply R_get. Qed.

Lemma preserves_datetime_now : preserves R datetime_now.
Proof. intros s. apply R_now. Qed.

Lemma preserves_api_get_request endpoint : preserves R (api_get_request endpoint).
Proof.
  unfold api_get_request. frame_with ltac:(apply preserves_requests_get).
Qed.

Lemma preserves_get_dmarc_xml attachment : preserves R (get_dmarc_xml attachment).
Proof. unfold get_dmarc_xml, decode, read_first_entry. frame_with fail. Qed.

Lemma preserves_process_item item processed_items :
  preserves R (process_item item processed_items).
Proof.
  unfold process_item.
  frame_with ltac:(first [ apply preserves_api_get_request
                         | apply preserves_get_dmarc_xml ]).
Qed.

Lemma preserves_for_items items processed_items :
  preserves R (for_items items processed_items).
Proof.
  revert processed_items. induction items as [|item rest IH]; intros d; simpl.
  - apply preserves_ret.
  - apply preserves_bind; [apply preserves_process_item|intros d'; apply IH].
Qed.

Lemma preserves_print_items items : preserves R (print_items items).
Proof.
  induction items as [|[id xml_data] rest IH]; simpl.
  - apply preserves_ret.
  - apply preserves_bind; [apply preserves_print|intros _; exact IH].
Qed.

(** The part of the program that also updates the object and posts. *)
Hypothesis R_modify : forall f s, R s (mkState (f (self s)) (trace s)).
Hypothesis R_post : forall url data s, R s (emit (Request (POST url data)) s).

Lemma preserves_modify_self f : preserves R (modify_self f).
Proof. intros s. apply R_modify. Qed.

Lemma preserves_requests_post url data : preserves R (requests_post url data).
Proof. intros s. apply R_post. Qed.

Lemma preserves__get_fresh_token : preserves R _get_fresh_token.
Proof.
  unfold _get_fresh_token.
  frame_with ltac:(first [ apply preserves_requests_post
                         | apply preserves_modify_self
                         | apply preserves_datetime_now ]).
Qed.

Lemma preserves_get_token : preserves R get_token.
Proof.
  unfold get_token.
  frame_with ltac:(first [ apply preserves__get_fresh_token
                         | apply preserves_datetime_now ]).
Qed.

Lemma preserves_get_folder_id : preserves R get_folder_id.
Proof.
  unfold get_folder_id.
  frame_with ltac:(first [ apply preserves_get_token
                         | apply preserves_api_get_request
                         | apply preserves_modify_self ]).
Qed.

Lemma preserves_process_dmarc_mail_items : preserves R process_dmarc_mail_items.
Proof.
  unfold process_dmarc_mail_items.
  frame_with ltac:(first [ apply preserves_get_folder_id
                         | apply preserves_api_get_request
                         | apply preserves_for_items ]).
Qed.

End Frame.

Section Orchestrator.

Context {lib : PyLib} {world : World}.

Lemma same_self_for_items items processed_items s :
  self (snd (for_items items processed_items s)) = self s.
Proof.
  apply (preserves_for_items same_self); unfold same_self; try reflexivity.
  intros s1 s2 s3 H12 H23. congruence.
Qed.

Lemma same_self_api_get_request endpoint s :
  self (snd (api_get_request endpoint s)) = self s.
Proof.
  apply (preserves_api_get_request same_self); unfold same_self; try reflexivity.
  intros s1 s2 s3 H12 H23. congruence.
Qed.

Lemma same_self_print_items items s : self (snd (print_items items s)) = self s.
Proof.
  apply (preserves_print_items same_self); unfold same_self; try reflexivity.
  intros s1 s2 s3 H12 H23. congruence.
Qed.

Lemma deletions_emit e s :
  (forall url headers, e <> Request (DELETE url headers)) ->
  deletions (trace (emit e s)) = deletions (trace s).
Proof.
  intros He. unfold emit. cbn [trace]. rewrite deletions_app.
  destruct e as [[]| |]; simpl; rewrite ?app_nil_r; try reflexivity.
  destruct (He url headers eq_refl).
Qed.

Lemma same_deletions_process s :
  deletions (trace (snd (process_dmarc_mail_items s))) = deletions (trace s).
Proof.
  apply (preserves_process_dmarc_mail_items same_deletions); unfold same_deletions;
    try reflexivity; try (intros; apply deletions_emit; discriminate).
  intros s1 s2 s3 H12 H23. congruence.
Qed.

Lemma same_deletions_print_items items s :
  deletions (trace (snd (print_items items s))) = deletions (trace s).
Proof.
  apply (preserves_print_items same_deletions); unfold same_deletions;
    try reflexivity; try (intros; apply deletions_emit; discriminate).
  intros s1 s2 s3 H12 H23. congruence.
Qed.

Lemma print_items_returns items s : fst (print_items items s) = Ok tt.
Proof.
  revert s. induction items as [|[id xml_data] rest IH]; intros s; [reflexivity|].
  simpl. unfold bind at 1, print at 1. apply IH.
Qed.

Lemma print_items_trace items s :
  exists lines, trace (snd (print_items items s)) = (trace s ++ map Stdout lines)%list.
Proof.
  revert s. induction items as [|[id xml_data] rest IH]; intros s.
  - exists []. simpl. rewrite app_nil_r. reflexivity.
  - set (line := ("ID: " ++ py_str id ++ ": Bytes: " ++ str_len xml_data)%string).
    change (print_items ((id, xml_data) :: rest) s)
      with (print_items rest (emit (Stdout line) s)).
    destruct (IH (emit (Stdout line) s)) as (lines & Hlines).
    rewrite Hlines. unfold emit. cbn [trace]. rewrite <- app_assoc.
    eexists (_ :: lines). reflexivity.
Qed.

Lemma request_after_lines lines (added pre : list event) r post :
  (map Stdout lines ++ added = pre ++ Request r :: post)%list ->
  (length lines <= length pre)%nat.
Proof.
  revert pre. induction lines as [|line lines IH]; intros pre Heq; simpl; [lia|].
  destruct pre as [|x pre]; simpl in Heq; [discriminate Heq|].
  injection Heq as _ Heq. apply IH in Heq. simpl. lia.
Qed.

(** A run of [process_dmarc_mail_items] that returns holds a token. *)
Lemma process_returns_with_token s items s1 :
  process_dmarc_mail_items s = (Ok items, s1) ->
  truthy (_token (self s1)) = true.
Proof.
  unfold process_dmarc_mail_items. intros Hrun.
  apply bind_ok_inv in Hrun as ([] & sa & _ & Hrun).
  apply bind_ok_inv in Hrun as (g & sa' & Hg & Hrun).
  injection Hg as <- <-. cbv zeta in Hrun.
  apply bind_ok_inv in Hrun as (value & sb & Hvalue & Hrun).
  apply bind_ok_inv in Hrun as (listed & sb' & Hlisted & Hrun).
  unfold lift in Hlisted. injection Hlisted as Hlisted <-.
  pose proof (same_self_for_items listed [] sb) as Hself. rewrite Hrun in Hself.
  pose proof (same_self_api_get_request (messages_url (self sa)) sa) as Hself'.
  rewrite Hvalue in Hself'. cbn [snd] in Hself, Hself'.
  rewrite Hself, Hself'.
  destruct (truthy (_token (self sa))) eqn:Htoken; [reflexivity|].
  unfold api_get_request, bind, get_self in Hvalue. rewrite Htoken in Hvalue.
  injection Hvalue as <- _. discriminate Hlisted.
Qed.

Lemma api_delete_request_answer endpoint s :
  truthy (_token (self s)) = true ->
  api_delete_request endpoint s =
  (Ok (status_code (respond (trace s) (DELETE endpoint (authorization (self s))))
       =? 204),
   emit (Request (DELETE endpoint (authorization (self s)))) s).
Proof.
  intros Htoken. unfold api_delete_request, bind at 1, get_self.
  rewrite Htoken. cbn [negb]. unfold bind, requests_delete, send.
  destruct (status_code _ =? 204); reflexivity.
Qed.

Lemma delete_mail_items_run items s :
  truthy (_token (self s)) = true ->
  exists added,
    delete_mail_items items s = (Ok tt, mkState (self s) (trace s ++ added))
    /\ deletions added = map (message_url (self s)) items
    /\ failures_reported (trace s) (trace s ++ added).
Proof.
  revert s. induction items as [|id rest IH]; intros s Htoken.
  - exists []. rewrite app_nil_r. destruct s as [g tr].
    split; [reflexivity|split; [reflexivity|]].
    intros pre url headers post Heq Hlen _. cbn [trace] in *.
    apply (f_equal (@length event)) in Heq. rewrite length_app in Heq.
    simpl in Heq. lia.
  - set (request := DELETE (message_url (self s) id) (authorization (self s))).
    set (answer := status_code (respond (trace s) request)).
    set (middle := if answer =? 204 then [Request request]
                   else [Request request; Stdout delete_failure_line]).
    set (s_mid := mkState (self s) (trace s ++ middle)).
    assert (Hstep : delete_mail_items (id :: rest) s = delete_mail_items rest s_mid).
    { cbn [delete_mail_items]. unfold bind at 1, get_self. cbv zeta.
      unfold bind at 1. rewrite (api_delete_request_answer _ _ Htoken).
      fold request answer. unfold s_mid, middle.
      destruct (answer =? 204); cbn [negb]; unfold bind, ret, print, emit;
        cbn [self trace]; rewrite <- ?app_assoc; reflexivity. }
    destruct (IH s_mid Htoken) as (added & Hrun & Hdel & Hrep).
    exists (middle ++ added)%list. cbn [self trace s_mid] in *.
    rewrite Hstep, Hrun, app_assoc. split; [reflexivity|split].
    + rewrite deletions_app, Hdel. unfold middle.
      destruct (answer =? 204); reflexivity.
    + intros pre url headers post Heq Hlen Hstatus.
      rewrite <- app_assoc in Heq.
      destruct (app_split_at _ _ _ _ _ Heq Hlen) as (pre2 & -> & Heq2).
      assert (Hlater : forall pre3,
                 added = (pre3 ++ Request (DELETE url headers) :: post)%list ->
                 (trace s ++ pre2 = (trace s ++ middle) ++ pre3)%list ->
                 exists post', post = Stdout delete_failure_line :: post').
      { intros pre3 Hadded Hpre. rewrite Hpre in Hstatus.
        apply (Hrep ((trace s ++ middle) ++ pre3)%list url headers post);
          [rewrite Hadded, app_assoc; reflexivity|rewrite !length_app; lia
          |exact Hstatus]. }
      unfold middle in *. destruct (Z.eqb_spec answer 204) as [Hok|Hfail].
      * destruct pre2 as [|x pre2]; simpl in Heq2.
        -- injection Heq2 as Hurl Hheaders _. rewrite app_nil_r in Hstatus.
           rewrite <- Hurl, <- Hheaders in Hstatus. destruct (Hstatus Hok).
        -- injection Heq2 as Hx Heq2. subst x.
           apply (Hlater pre2 Heq2). rewrite <- app_assoc. reflexivity.
      * destruct pre2 as [|x [|y pre2]]; simpl in Heq2.
        -- injection Heq2 as _ _ <-. eauto.
        -- congruence.
        -- injection Heq2 as Hx Hy Heq2. subst x y.
           apply (Hlater pre2 Heq2). rewrite <- app_assoc. reflexivity.
Qed.

(** C9.  [delete_mail_items] with a token held returns without raising,
    sends one DELETE for each identifier it is given, in order and no other,
    whatever the answers are, and prints the failure line after each DELETE
    that is answered with a status other than 204.  In [main], the
    identifiers it is given are the keys of the mapping that
    [process_dmarc_mail_items] returned, and nothing was deleted before. *)
Theorem deletion_attempts :
  (forall items s,
      truthy (_token (self s)) = true ->
      exists added,
        delete_mail_items items s = (Ok tt, mkState (self s) (trace s ++ added))
        /\ deletions added = map (message_url (self s)) items
        /\ failures_reported (trace s) (trace s ++ added))
  /\ (forall s items s1,
         process_dmarc_mail_items s = (Ok items, s1) ->
         exists s2,
           main_graph s = (Ok tt, s2)
           /\ deletions (trace s2)
              = (deletions (trace s) ++ map (message_url (self s1)) (keys items))%list
           /\ failures_reported (trace s1) (trace s2)).
Proof.
  split; [exact delete_mail_items_run|].
  intros s items s1 Hrun.
  pose proof (process_returns_with_token _ _ _ Hrun) as Htoken.
  pose proof (same_deletions_process s) as Hdel. rewrite Hrun in Hdel.
  cbn [snd] in Hdel.
  destruct (print_items items s1) as [r sp] eqn:Hprint.
  pose proof (print_items_returns items s1) as Hr.
  pose proof (same_self_print_items items s1) as Hself.
  pose proof (same_deletions_print_items items s1) as Hdelp.
  rewrite Hprint in Hr, Hself, Hdelp. cbn [fst snd] in Hr, Hself, Hdelp. subst r.
  rewrite <- Hself in Htoken.
  destruct (delete_mail_items_run (keys items) sp Htoken) as (added & Hd & Hurls & Hrep).
  exists (mkState (self sp) (trace sp ++ added)). split; [|split].
  - unfold main_graph, bind. rewrite Hrun, Hprint. exact Hd.
  - cbn [trace]. rewrite deletions_app, Hurls, Hdelp, Hdel, Hself. reflexivity.
  - cbn [trace]. intros pre url headers post Heq Hlen Hstatus.
    apply (Hrep pre url headers post Heq); [|exact Hstatus].
    destruct (print_items_trace items s1) as (lines & Hlines).
    rewrite Hprint in Hlines. cbn [snd] in Hlines.
    rewrite Hlines, <- app_assoc in Heq.
    destruct (app_split_at _ _ _ _ _ Heq Hlen) as (pre2 & -> & Heq2).
    apply request_after_lines in Heq2.
    rewrite Hlines, !length_app, length_map. lia.
Qed.

Lemma yields_ret {A} (P : A -> Prop) a : P a -> yields P (ret a).
Proof. intros Ha s a' s' [= <- _]. exact Ha. Qed.

Lemma yields_bind {A B} (P : B -> Prop) (c : M A) (k : A -> M B) :
  (forall a, yields P (k a)) -> yields P (bind c k).
Proof.
  intros Hk s b s' Hrun. apply bind_ok_inv in Hrun as (a & s1 & _ & Hrun).
  exact (Hk a s1 b s' Hrun).
Qed.

Lemma yields_bind_lift {A B} (P : B -> Prop) (r : result A) (k : A -> M B) :
  (forall a, r = Ok a -> yields P (k a)) -> yields P (bind (lift r) k).
Proof.
  intros Hk s b s' Hrun. apply bind_ok_inv in Hrun as (a & s1 & Ha & Hrun).
  injection Ha as Ha _. exact (Hk a Ha s1 b s' Hrun).
Qed.

Lemma dict_set_no_empty_value d key data :
  no_empty_value d -> data <> [] -> no_empty_value (dict_set d key data).
Proof.
  unfold no_empty_value. intros Hd Hdata.
  induction Hd as [|[k v] d Hv Hd IH]; simpl.
  - constructor; [exact Hdata|constructor].
  - destruct (py_key_eqb k key); constructor; assumption.
Qed.

Lemma process_item_no_empty_value item processed_items :
  no_empty_value processed_items ->
  yields no_empty_value (process_item item processed_items).
Proof.
  intros Hd. unfold process_item.
  repeat (apply yields_bind; intros ?).
  destruct (truthy _); [|apply yields_ret, Hd].
  apply yields_bind; intros attachment.
  destruct (truthy attachment); [|apply yields_ret, Hd].
  repeat (apply yields_bind; intros ?).
  match goal with |- yields _ (match ?x with _ => _ end) =>
    destruct x as [[|b data]|] end; try apply yields_ret, Hd.
  apply yields_bind; intros key.
  apply yields_bind_lift. intros d' Hset.
  do 2 (apply yields_bind; intros ?). apply yields_ret.
  unfold py_setitem in Hset. destruct (hashable key); [|discriminate].
  injection Hset as <-. apply dict_set_no_empty_value; [exact Hd|discriminate].
Qed.

Lemma for_items_no_empty_value items processed_items :
  no_empty_value processed_items ->
  yields no_empty_value (for_items items processed_items).
Proof.
  revert processed_items. induction items as [|item rest IH]; intros d Hd.
  - apply yields_ret, Hd.
  - cbn [for_items]. intros s d2 s2 Hrun.
    apply bind_ok_inv in Hrun as (d1 & s1 & Hitem & Hrest).
    exact (IH d1 (process_item_no_empty_value _ _ Hd _ _ _ Hitem) _ _ _ Hrest).
Qed.

(** C10.  A message whose first attachment [get_dmarc_xml] decodes to the
    empty byte sequence adds nothing to the mapping: the loop goes on with
    the mapping it had; and the mapping [process_dmarc_mail_items] returns
    holds no empty byte sequence.  What decides is the truth value of the
    decoded bytes. *)
Theorem empty_payload_excluded :
  (forall item rest processed_items s received d subject id
          attachments s2 attachment name content_type s4,
      py_getitem item "receivedDateTime" = Ok received ->
      datetime_strptime received "%Y-%m-%dT%H:%M:%SZ" = Ok d ->
      py_getitem item "subject" = Ok subject ->
      py_getitem item "id" = Ok id ->
      api_get_request (attachments_url (self s) id)
        (emit (Stdout ("Subject: " ++ py_str subject))
           (emit (Stdout ("Received: " ++ str_datetime d)) s))
      = (Ok attachments, s2) ->
      truthy attachments = true ->
      py_index0 attachments = Ok attachment ->
      truthy attachment = true ->
      py_getitem attachment "name" = Ok name ->
      py_getitem attachment "contentType" = Ok content_type ->
      get_dmarc_xml attachment
        (emit (Stdout ("Content type: " ++ py_str content_type))
           (emit (Stdout ("Name: " ++ py_str name)) s2))
      = (Ok (Some []), s4) ->
      process_item item processed_items s = (Ok processed_items, s4)
      /\ for_items (item :: rest) processed_items s
         = for_items rest processed_items s4)
  /\ (forall s items s',
         process_dmarc_mail_items s = (Ok items, s') -> no_empty_value items).
Proof.
  split.
  - intros item rest processed_items s received d subject id attachments s2
      attachment name content_type s4
      Hreceived Hd Hsubject Hid Hlist Hsome Hfirst Hatt Hname Htype Hxml.
    assert (Hitem : process_item item processed_items s = (Ok processed_items, s4)).
    { unfold process_item. rewrite bind_get_self_eq.
      rewrite (bind_lift_ok _ _ _ _ Hreceived), (bind_lift_ok _ _ _ _ Hd), bind_print_eq.
      rewrite (bind_lift_ok _ _ _ _ Hsubject), bind_print_eq.
      rewrite (bind_lift_ok _ _ _ _ Hid). cbv zeta.
      rewrite (bind_run_ok _ _ _ _ _ Hlist), Hsome.
      rewrite (bind_lift_ok _ _ _ _ Hfirst), Hatt.
      rewrite (bind_lift_ok _ _ _ _ Hname), bind_print_eq.
      rewrite (bind_lift_ok _ _ _ _ Htype), bind_print_eq.
      rewrite (bind_run_ok _ _ _ _ _ Hxml). reflexivity. }
    split; [exact Hitem|].
    cbn [for_items]. apply (bind_run_ok _ _ _ _ _ Hitem).
  - intros s items s' Hrun. unfold process_dmarc_mail_items in Hrun.
    apply bind_ok_inv in Hrun as (? & ? & _ & Hrun).
    apply bind_ok_inv in Hrun as (? & ? & _ & Hrun). cbv zeta in Hrun.
    apply bind_ok_inv in Hrun as (? & ? & _ & Hrun).
    apply bind_ok_inv in Hrun as (listed & ? & _ & Hrun).
    apply (for_items_no_empty_value listed [] (Forall_nil _) _ _ _ Hrun).
Qed.

End Orchestrator.

(** ** The properties on the scenarios *)

Section Scenarios.

Import Fixture.

Local Existing Instance lib.

Local Ltac reads :=
  constructor;
  [ eexists; split; reflexivity | reflexivity | eexists; split; reflexivity ].

Example get_extention_report : get_extention (JStr "report.xml.gz") = Ok (JStr "gz").
Proof. reflexivity. Qed.

Example get_extention_trailing_dot : get_extention (JStr "report.") = Ok (JStr "").
Proof. reflexivity. Qed.

Lemma get_dmarc_xml_gzip_witness :
  get_dmarc_xml attachment_gz start = (Ok (Some xml), start)
  /\ get_dmarc_xml attachment_gz_by_type start = (Ok (Some xml), start).
Proof.
  split.
  - apply (get_dmarc_xml_gzip attachment_gz (JStr "application/octet-stream")
             (JStr "gz") gz_raw xml start);
      [reads | right; left; reflexivity | reflexivity].
  - apply (get_dmarc_xml_gzip attachment_gz_by_type (JStr "application/gzip")
             (JStr "report") gz_raw xml start);
      [reads | left; reflexivity | reflexivity].
Defined.

Lemma not_gzip_signal content_type ext :
  py_eq_str content_type "application/gzip" || py_eq_str ext "gz"
    || py_eq_str ext "gzip" = false ->
  ~ gzip_signal content_type ext.
Proof. intros H Hsig. apply gzip_signal_test in Hsig. congruence. Defined.



Lemma get_extention_spec_witness :
  get_extention (JStr "report.xml.gz") = Ok (JStr "gz")
  /\ get_extention (JStr "gz") = Ok (JStr "gz").
Proof.
  split.
  - exact (proj1 (proj2 get_extention_spec) "report.xml" "gz" eq_refl).
  - exact (proj1 (proj2 (proj2 get_extention_spec)) "gz" eq_refl).
Defined.

(** C3, as the claim states it, fails on the name [gz]: it has no ['.'], its
    extension is not absent, and the extension matches [gz]. *)
Lemma get_extention_no_dot_counterexample :
  contains "." "gz" = false
  /\ get_extention (JStr "gz") <> Ok JNull
  /\ (exists ext, get_extention (JStr "gz") = Ok ext /\ py_eq_str ext "gz" = true)
  /\ get_dmarc_xml (attachment "gz" "application/octet-stream" gz_b64) start
     = (Ok (Some xml), start).
Proof.
  split; [reflexivity|split; [discriminate|split]].
  - exists (JStr "gz"). split; reflexivity.
  - reflexivity.
Qed.

Lemma get_dmarc_xml_invalid_witness :
  get_dmarc_xml attachment_not_gz start = (Ok None, start)
  /\ get_dmarc_xml attachment_not_zip start = (Ok None, start).
Proof.
  split.
  - refine (proj1 (proj2 (get_dmarc_xml_invalid attachment_not_gz
              (JStr "application/gzip") (JStr "gz") not_gz_raw start _))
              (OtherError "gzip.BadGzipFile") _ eq_refl);
      [reads | left; reflexivity].
  - refine (proj1 (proj2 (proj2 (get_dmarc_xml_invalid attachment_not_zip
              (JStr "application/zip") (JStr "zip") not_gz_raw start _)))
              (OtherError "zipfile.BadZipFile") _ _ eq_refl);
      [reads | apply not_gzip_signal; reflexivity | left; reflexivity].
Defined.

Lemma api_request_without_token_witness :
  api_get_request (world:=world) (folders_url graph) start = (Ok JNull, start)
  /\ api_delete_request (world:=world) (message_url graph (JStr "msg-1")) start
     = (Ok false, start).
Proof.
  split.
  - exact (proj1 (api_request_without_token (world:=world) _ start eq_refl)).
  - exact (proj2 (api_request_without_token (world:=world) _ start eq_refl)).
Defined.


(** Two calls in a row, the second one second after the token was acquired:
    two token requests. *)
Example get_token_twice :
  let s1 := snd (get_token (world:=world) start) in
  _token (self s1) = JStr "eyJ0eXAi"
  /\ _token_expires (self s1) = Some 1714548600000000
  /\ @now world (trace s1) = 1714545002000000
  /\ token_requests (trace s1) = 1%nat
  /\ token_requests (trace (snd (get_token (world:=world) s1))) = 2%nat.
Proof. repeat split; reflexivity. Qed.

(** C5 at a concrete input: the message listing is answered with status 503. *)
Lemma process_raises_on_failed_listing_witness :
  fst (process_dmarc_mail_items (world:=world_down) start) = Raise TypeError.
Proof.
  rewrite (proj1 (process_raises_on_failed_listing (world:=world_down) start
                    (snd (get_folder_id (world:=world_down) start))));
    [reflexivity | reflexivity | reflexivity | vm_compute; discriminate].
Defined.

Example main_raises_on_failed_listing :
  fst (main (world:=world_down) (Ok config) []) = Raise TypeError.
Proof. reflexivity. Qed.

Lemma get_folder_id_resolves_witness :
  _folder_id (self (snd (get_folder_id (world:=world) start))) = JStr "AAMk-dmarc".
Proof.
  destruct (get_folder_id_resolves (world:=world) start
              (snd (get_token (world:=world) start))
              (JObj [ ("value", JArr folders) ]) folders
              eq_refl eq_refl eq_refl eq_refl eq_refl eq_refl) as [Hrun _].
  - repeat (constructor; [eexists; eexists; split; reflexivity|]). constructor.
  - rewrite Hrun. reflexivity.
Defined.

Lemma deletion_attempts_witness :
  exists s2,
    main_graph (world:=world) start = (Ok tt, s2)
    /\ deletions (trace s2)
       = [ "https://graph.microsoft.com/v1.0/users/dmarc@example.com/messages/msg-1";
           "https://graph.microsoft.com/v1.0/users/dmarc@example.com/messages/msg-4" ].
Proof.
  assert (Hrun : process_dmarc_mail_items (world:=world) start
                 = (Ok [ (JStr "msg-1", xml); (JStr "msg-4", xml) ],
                    snd (process_dmarc_mail_items (world:=world) start)))
    by (vm_compute; reflexivity).
  destruct (proj2 (deletion_attempts (world:=world)) start _ _ Hrun)
    as (s2 & Hmain & Hdeleted & _).
  exists s2. split; [exact Hmain|]. rewrite Hdeleted. reflexivity.
Defined.

Lemma empty_payload_excluded_witness :
  exists s4,
    process_item (world:=world) message_empty [ (JStr "msg-1", xml) ] ready
    = (Ok [ (JStr "msg-1", xml) ], s4).
Proof.
  eexists.
  refine (proj1 (proj1 (empty_payload_excluded (world:=world))
                   message_empty [] [ (JStr "msg-1", xml) ] ready
                   (JStr "2024-05-01T06:30:00Z") 1714545000000000
                   (JStr "Report domain: example.net") (JStr "msg-3")
                   (JArr [attachment_gz_empty]) _ attachment_gz_empty
                   (JStr "empty.xml.gz") (JStr "application/gzip") _
                   eq_refl eq_refl eq_refl eq_refl eq_refl eq_refl eq_refl eq_refl
                   eq_refl eq_refl eq_refl)).
Defined.

End Scenarios.

(** ** More of the program: start-up, the token and the folder *)

Section Startup.

Context {lib : PyLib} {world : World}.

Lemma Graph_init_first_failure settings before key after e :
  options = (before ++ key :: after)%list ->
  Forall (fun option => exists value, settings option = Some (Ok value)) before ->
  settings_get settings key = Raise e ->
  Graph_init settings = Raise e.
Proof.
  intros Hoptions Hbefore Hkey. unfold Graph_init, options in *.
  repeat (destruct before as [|option before];
          [ cbn [app] in Hoptions; injection Hoptions as <- _;
            rewrite Hkey; reflexivity
          | cbn [app] in Hoptions; injection Hoptions as <- Hoptions;
            apply Forall_cons_iff in Hbefore as [(? & ?) Hbefore];
            unfold settings_get at 1;
            match goal with
            | H : settings _ = Some (Ok _) |- _ => rewrite H; clear H
            end;
            cbn [rbind] ]).
  destruct before; cbn [app] in Hoptions; discriminate Hoptions.
Qed.

(** X1.  [main] stops before anything is sent, printed or timed when the
    configuration fails: with the exception [config.read] raises; with
    [KeyError] when there is no section [graph-dmarc-mail]; and, reading the
    five options in order, with [KeyError] at the first that is not set or
    with what its interpolation raises at the first that cannot be read.
    With the five options read, the object starts without a token, an
    expiry or a folder identifier. *)
Theorem main_configuration_errors config tr :
  (forall e, config = Raise e -> main config tr = (Raise e, tr))
  /\ (forall sections,
         config = Ok sections ->
         sections "graph-dmarc-mail" = None ->
         main config tr = (Raise KeyError, tr))
  /\ (forall sections settings before key after e,
         config = Ok sections ->
         sections "graph-dmarc-mail" = Some settings ->
         options = (before ++ key :: after)%list ->
         Forall (fun option => exists value, settings option = Some (Ok value))
                before ->
         (settings key = None /\ e = KeyError) \/ settings key = Some (Raise e) ->
         Graph_init settings = Raise e
         /\ main config tr = (Raise e, tr))
  /\ (forall settings cid secret tenant mbox folder,
         settings "clientId" = Some (Ok cid) ->
         settings "clientSecret" = Some (Ok secret) ->
         settings "tenantId" = Some (Ok tenant) ->
         settings "mailbox" = Some (Ok mbox) ->
         settings "mailbox_folder" = Some (Ok folder) ->
         Graph_init settings = Ok (mkGraph JNull None JNull cid secret tenant mbox folder)).
Proof.
  split; [|split; [|split]].
  - intros e ->. reflexivity.
  - intros sections -> Hsection. unfold main. rewrite Hsection. reflexivity.
  - intros sections settings before key after e -> Hsection Hoptions Hbefore Hkey.
    assert (Hget : settings_get settings key = Raise e).
    { unfold settings_get. destruct Hkey as [[-> ->]| ->]; reflexivity. }
    pose proof (Graph_init_first_failure _ _ _ _ _ Hoptions Hbefore Hget) as Hinit.
    split; [exact Hinit|]. unfold main. rewrite Hsection, Hinit. reflexivity.
  - intros settings cid secret tenant mbox folder H1 H2 H3 H4 H5.
    unfold Graph_init, settings_get, rbind. rewrite H1, H2, H3, H4, H5. reflexivity.
Qed.

Lemma fresh_token_refused s :
  status_code (respond (trace s) (token_request (self s))) <> 200 ->
  _get_fresh_token s
  = (Ok tt, mkState (set_token JNull (self s))
                    (trace s ++ [Request (token_request (self s))])).
Proof.
  intros Hstatus. apply Z.eqb_neq in Hstatus.
  unfold _get_fresh_token. rewrite bind_get_self_eq. cbv zeta.
  unfold bind, requests_post, send. fold (token_request (self s)).
  rewrite Hstatus. reflexivity.
Qed.

Lemma fresh_token_answered s body access_token expires_in :
  status_code (respond (trace s) (token_request (self s))) = 200 ->
  loads_text (respond (trace s) (token_request (self s))) = Ok body ->
  py_getitem body "access_token" = Ok access_token ->
  py_getitem body "expires_in" = Ok (JNum expires_in) ->
  let t := now (trace s ++ [Request (token_request (self s))]) in
  let s' := mkState (set_token access_token (self s))
                    (trace s ++ [Request (token_request (self s)); Now]) in
  _get_fresh_token s
  = if timedelta_range expires_in && datetime_range (t + expires_in * 1000000)
    then (Ok tt,
          mkState (set_token_expires (Some (t + expires_in * 1000000)) (self s'))
                  (trace s'))
    else (Raise OverflowError, s').
Proof.
  intros Hstatus Hbody Htoken Hexpires t s'.
  unfold _get_fresh_token. rewrite bind_get_self_eq. cbv zeta.
  unfold bind at 1, requests_post, send. fold (token_request (self s)).
  rewrite Hstatus. cbn [Z.eqb Pos.eqb].
  rewrite (bind_lift_ok _ _ _ _ Hbody), (bind_lift_ok _ _ _ _ Htoken).
  unfold bind at 1, modify_self. unfold bind at 1, datetime_now.
  rewrite (bind_lift_ok _ _ _ _ Hexpires).
  unfold bind, lift, timedelta_seconds, datetime_plus, modify_self, emit.
  cbn [self trace]. fold t. rewrite <- app_assoc. cbn [app]. fold s'.
  destruct (timedelta_range expires_in); [|reflexivity].
  destruct (datetime_range (t + expires_in * 1000000)); reflexivity.
Qed.

(** X2.  With no token held, [get_token] sends exactly the token request.
    An answer with status 200 that carries [access_token] and an integer
    [expires_in] has the token stored and the clock read; then, when
    [expires_in] seconds fit a [timedelta] and the time read plus them is a
    [datetime], that is stored as the expiry, and otherwise
    [OverflowError] is raised with the token stored and the expiry as it
    was.  Any other status raises nothing: the token stays [None], the
    expiry stays as it was, and the clock is not read. *)
Theorem get_token_first s :
  _token (self s) = JNull ->
  let post := token_request (self s) in
  (forall body access_token expires_in,
      status_code (respond (trace s) post) = 200 ->
      loads_text (respond (trace s) post) = Ok body ->
      py_getitem body "access_token" = Ok access_token ->
      py_getitem body "expires_in" = Ok (JNum expires_in) ->
      let t := now (trace s ++ [Request post]) in
      let s' := mkState (set_token access_token (self s))
                        (trace s ++ [Request post; Now]) in
      (- timedelta_days <= expires_in / 86400 <= timedelta_days ->
       datetime_min <= t + expires_in * 1000000 <= datetime_max ->
       get_token s
       = (Ok tt,
          mkState (set_token_expires (Some (t + expires_in * 1000000))
                                     (set_token access_token (self s)))
                  (trace s ++ [Request post; Now])))
      /\ (~ (- timedelta_days <= expires_in / 86400 <= timedelta_days)
          \/ ~ (datetime_min <= t + expires_in * 1000000 <= datetime_max) ->
          get_token s = (Raise OverflowError, s')))
  /\ (status_code (respond (trace s) post) <> 200 ->
      get_token s
      = (Ok tt, mkState (set_token JNull (self s)) (trace s ++ [Request post]))).
Proof.
  intros Hnone post.
  assert (Hrun : get_token s = _get_fresh_token s).
  { unfold get_token. rewrite bind_get_self_eq, Hnone. reflexivity. }
  rewrite Hrun. split; [|apply fresh_token_refused].
  intros body access_token expires_in Hstatus Hbody Htoken Hexpires t s'.
  rewrite (fresh_token_answered _ _ _ _ Hstatus Hbody Htoken Hexpires).
  cbv zeta. fold post t. unfold timedelta_range, datetime_range.
  split.
  - intros Hdelta Hsum.
    destruct (Z.leb_spec (- timedelta_days) (expires_in / 86400)); [|lia].
    destruct (Z.leb_spec (expires_in / 86400) timedelta_days); [|lia].
    destruct (Z.leb_spec datetime_min (t + expires_in * 1000000)); [|lia].
    destruct (Z.leb_spec (t + expires_in * 1000000) datetime_max); [|lia].
    reflexivity.
  - intros Hout.
    destruct (Z.leb_spec (- timedelta_days) (expires_in / 86400));
      [|reflexivity].
    destruct (Z.leb_spec (expires_in / 86400) timedelta_days); [|reflexivity].
    destruct (Z.leb_spec datetime_min (t + expires_in * 1000000));
      [|reflexivity].
    destruct (Z.leb_spec (t + expires_in * 1000000) datetime_max);
      [|reflexivity].
    exfalso. destruct Hout as [Hout|Hout]; apply Hout; lia.
Qed.

Lemma fresh_token_has_expiry s s' :
  _get_fresh_token s = (Ok tt, s') -> token_has_expiry (self s').
Proof.
  unfold _get_fresh_token. rewrite bind_get_self_eq. cbv zeta.
  unfold bind at 1, requests_post, send.
  destruct (status_code _ =? 200).
  - intros Hrun.
    apply bind_ok_inv in Hrun as (token_data & s1 & _ & Hrun).
    apply bind_ok_inv in Hrun as (access_token & s2 & _ & Hrun).
    apply bind_ok_inv in Hrun as ([] & s3 & Hset & Hrun).
    apply bind_ok_inv in Hrun as (t & s4 & Hnow & Hrun).
    apply bind_ok_inv in Hrun as (expires_in & s5 & Hlift & Hrun).
    apply bind_ok_inv in Hrun as (delta & s6 & Hlift' & Hrun).
    apply bind_ok_inv in Hrun as (expires & s7 & Hsum & Hrun).
    unfold modify_self in Hrun. injection Hrun as <-.
    right. eexists. reflexivity.
  - unfold modify_self. intros [= <-]. left. reflexivity.
Qed.

(** X3.  When [get_token] returns, a token that is held has an expiry.  A
    token held without one makes [get_token] raise [TypeError] before
    anything is sent; the code gets there when a token answer with status
    200 carries [access_token] and no [expires_in]: the token is stored,
    then [KeyError] is raised. *)
Theorem get_token_expiry s :
  (forall s', get_token s = (Ok tt, s') -> token_has_expiry (self s'))
  /\ (is_None (_token (self s)) = false ->
      _token_expires (self s) = None ->
      get_token s = (Raise TypeError, s))
  /\ (forall body access_token,
         _token (self s) = JNull ->
         status_code (respond (trace s) (token_request (self s))) = 200 ->
         loads_text (respond (trace s) (token_request (self s))) = Ok body ->
         py_getitem body "access_token" = Ok access_token ->
         py_getitem body "expires_in" = Raise KeyError ->
         get_token s
         = (Raise KeyError,
            mkState (set_token access_token (self s))
                    (trace s ++ [Request (token_request (self s)); Now]))).
Proof.
  split; [|split].
  - intros s'. unfold get_token. rewrite bind_get_self_eq.
    destruct (is_None (_token (self s))) eqn:Hnone;
      [apply fresh_token_has_expiry|].
    destruct (_token_expires (self s)) as [expires|] eqn:Hexpires;
      [|discriminate].
    unfold bind at 1, lift at 1, datetime_add. unfold bind at 1, datetime_now.
    destruct (_ >? _); [apply fresh_token_has_expiry|].
    intros [= <-]. right. exists expires. exact Hexpires.
  - intros Hheld Hexpires. unfold get_token. rewrite bind_get_self_eq, Hheld, Hexpires.
    reflexivity.
  - intros body access_token Hnone Hstatus Hbody Htoken Hexpires.
    unfold get_token. rewrite bind_get_self_eq, Hnone. cbn [is_None].
    unfold _get_fresh_token. rewrite bind_get_self_eq. cbv zeta.
    unfold bind at 1, requests_post, send. fold (token_request (self s)).
    rewrite Hstatus. cbn [Z.eqb Pos.eqb].
    rewrite (bind_lift_ok _ _ _ _ Hbody), (bind_lift_ok _ _ _ _ Htoken).
    unfold bind at 1, modify_self. unfold bind at 1, datetime_now.
    unfold bind, lift. rewrite Hexpires. unfold emit. cbn [self trace].
    rewrite <- app_assoc. reflexivity.
Qed.

(** X4.  When no token is held and the token request is answered with a
    status other than 200, [get_folder_id] returns without sending a GET,
    and [process_dmarc_mail_items] raises [TypeError]: the only request of
    the run is the token request. *)
Theorem process_without_authentication s :
  _token (self s) = JNull ->
  status_code (respond (trace s) (token_request (self s))) <> 200 ->
  let s1 := mkState (set_token JNull (self s))
                    (trace s ++ [Request (token_request (self s))]) in
  get_folder_id s = (Ok tt, s1)
  /\ process_dmarc_mail_items s = (Raise TypeError, s1).
Proof.
  intros Hnone Hstatus s1.
  assert (Htoken : get_token s = (Ok tt, s1)).
  { unfold get_token. rewrite bind_get_self_eq, Hnone.
    apply fresh_token_refused, Hstatus. }
  assert (Hfolder : get_folder_id s = (Ok tt, s1)).
  { unfold get_folder_id. rewrite (bind_run_ok _ _ _ _ _ Htoken). reflexivity. }
  split; [exact Hfolder|].
  unfold process_dmarc_mail_items. rewrite (bind_run_ok _ _ _ _ _ Hfolder).
  reflexivity.
Qed.

Lemma fresh_token_folder_id s :
  _folder_id (self (snd (_get_fresh_token s))) = _folder_id (self s).
Proof.
  unfold _get_fresh_token. rewrite bind_get_self_eq. cbv zeta.
  unfold bind at 1, requests_post, send.
  destruct (status_code _ =? 200); [|reflexivity].
  unfold bind, lift, modify_self, datetime_now.
  destruct (loads_text _) as [token_data|]; [|reflexivity].
  destruct (py_getitem token_data "access_token"); [|reflexivity].
  destruct (py_getitem token_data "expires_in") as [expires_in|]; [|reflexivity].
  destruct (timedelta_seconds expires_in) as [delta|]; [|reflexivity].
  destruct (datetime_plus _ delta); reflexivity.
Qed.

Lemma get_token_folder_id s :
  _folder_id (self (snd (get_token s))) = _folder_id (self s).
Proof.
  unfold get_token. rewrite bind_get_self_eq.
  destruct (is_None (_token (self s))); [apply fresh_token_folder_id|].
  unfold bind at 1, lift at 1.
  destruct (datetime_add _ _); [|reflexivity].
  unfold bind at 1, datetime_now.
  destruct (_ >? _); [|reflexivity].
  rewrite fresh_token_folder_id. reflexivity.
Qed.

(** X5.  Once a folder identifier is cached, [get_folder_id] does what
    [get_token] does and nothing more: no folder listing is requested, and
    the identifier stays. *)
Theorem get_folder_id_cached s :
  truthy (_folder_id (self s)) = true ->
  get_folder_id s = get_token s
  /\ _folder_id (self (snd (get_folder_id s))) = _folder_id (self s).
Proof.
  intros Hcached.
  assert (Hrun : get_folder_id s = get_token s).
  { pose proof (get_token_folder_id s) as Hkept.
    unfold get_folder_id, bind at 1.
    destruct (get_token s) as [[[]|e] s1]; [|reflexivity].
    cbn [snd] in Hkept. rewrite bind_get_self_eq, Hkept, Hcached, orb_true_r.
    reflexivity. }
  split; [exact Hrun|]. rewrite Hrun. apply get_token_folder_id.
Qed.

End Startup.

(** ** More of the decoder *)

Lemma last_split_suffix sep s :
  contains sep (last (split sep s) "") = false
  /\ (s = last (split sep s) ""%string
      \/ exists pre, s = (pre ++ String sep (last (split sep s) ""))%string).
Proof.
  induction s as [|c rest [IHfree IHsuffix]]; [split; [reflexivity|left; reflexivity]|].
  cbn [split].
  destruct (split sep rest) as [|p ps] eqn:E; [destruct (split_nonempty _ _ E)|].
  destruct (Ascii.eqb c sep) eqn:Hc.
  - apply Ascii.eqb_eq in Hc. subst c.
    change (last (EmptyString :: p :: ps) ""%string) with (last (p :: ps) ""%string).
    split; [exact IHfree|]. right.
    destruct IHsuffix as [Hrest|(pre & Hrest)].
    + exists ""%string. cbn [append]. rewrite <- Hrest. reflexivity.
    + exists (String sep pre). cbn [append]. rewrite <- Hrest. reflexivity.
  - destruct ps as [|q ps].
    + cbn [last] in *. split; [simpl; rewrite Hc; exact IHfree|].
      destruct IHsuffix as [Hrest|(pre & Hrest)].
      * left. rewrite Hrest. reflexivity.
      * destruct (split_sep_parts sep pre p) as (p1 & p2 & ps' & Hparts).
        rewrite <- Hrest, E in Hparts. discriminate Hparts.
    + change (last (String c p :: q :: ps) ""%string) with (last (p :: q :: ps) ""%string).
      split; [exact IHfree|].
      destruct IHsuffix as [Hrest|(pre & Hrest)].
      * rewrite <- Hrest in IHfree. rewrite (split_no_sep _ _ IHfree) in E.
        discriminate E.
      * right. exists (String c pre). cbn [append]. rewrite <- Hrest. reflexivity.
Qed.

(** X6.  The extension of a name never holds a ['.'], and the name ends in
    it: the name is its extension, or something, a ['.'] and the extension. *)
Theorem get_extention_suffix name :
  exists ext,
    get_extention (JStr name) = Ok (JStr ext)
    /\ contains "." ext = false
    /\ (name = ext \/ exists pre, name = (pre ++ "." ++ ext)%string).
Proof.
  exists (last (split "."%char name) ""%string).
  split; [apply get_extention_last|]. apply last_split_suffix.
Qed.

Section DecoderEdges.

Context {lib : PyLib}.


(** X8.  What is read before the [try] is not caught: [get_dmarc_xml]
    raises the [KeyError] of an attachment without [name], [contentType] or
    [contentBytes], the [AttributeError] of a name that is neither a string
    nor [None], and whatever [base64.b64decode] raises, also when the
    attachment carries a gzip or a zip signal. *)
Theorem get_dmarc_xml_raises attachment s e :
  (py_getitem attachment "name" = Raise e ->
   get_dmarc_xml attachment s = (Raise e, s))
  /\ (forall name,
         py_getitem attachment "name" = Ok name ->
         (forall text, name <> JStr text) -> name <> JNull ->
         get_dmarc_xml attachment s = (Raise AttributeError, s))
  /\ (forall name ext,
         py_getitem attachment "name" = Ok name ->
         get_extention name = Ok ext ->
         (py_getitem attachment "contentType" = Raise e ->
          get_dmarc_xml attachment s = (Raise e, s))
         /\ (forall content_type,
                py_getitem attachment "contentType" = Ok content_type ->
                (py_getitem attachment "contentBytes" = Raise e ->
                 get_dmarc_xml attachment s = (Raise e, s))
                /\ (forall content_bytes,
                       py_getitem attachment "contentBytes" = Ok content_bytes ->
                       base64_b64decode content_bytes = Raise e ->
                       get_dmarc_xml attachment s = (Raise e, s)))).
Proof.
  unfold get_dmarc_xml. split; [|split].
  - intros Hname. unfold bind, lift. rewrite Hname. reflexivity.
  - intros name Hname Hstr Hnull. rewrite (bind_lift_ok _ _ _ _ Hname).
    unfold bind, lift.
    destruct name; try reflexivity; [destruct (Hnull eq_refl)|destruct (Hstr _ eq_refl)].
  - intros name ext Hname Hext.
    rewrite (bind_lift_ok _ _ _ _ Hname), (bind_lift_ok _ _ _ _ Hext).
    split.
    + intros Htype. unfold bind, lift. rewrite Htype. reflexivity.
    + intros content_type Htype. rewrite (bind_lift_ok _ _ _ _ Htype). split.
      * intros Hbytes. unfold bind, lift. rewrite Hbytes. reflexivity.
      * intros content_bytes Hbytes Hraw. rewrite (bind_lift_ok _ _ _ _ Hbytes).
        unfold bind, lift. rewrite Hraw. reflexivity.
Qed.

End DecoderEdges.

(** ** More of the orchestrator *)

Section Loop.

Context {lib : PyLib} {world : World}.

(** X9.  A message whose attachment listing is empty or [None], or whose
    first attachment is an empty object, is skipped: nothing is decoded, the
    mapping stays as it was, and the loop goes on with the next message. *)
Theorem process_item_no_attachment
        item rest processed_items s received d subject id attachments s2 :
  py_getitem item "receivedDateTime" = Ok received ->
  datetime_strptime received "%Y-%m-%dT%H:%M:%SZ" = Ok d ->
  py_getitem item "subject" = Ok subject ->
  py_getitem item "id" = Ok id ->
  api_get_request (attachments_url (self s) id)
    (emit (Stdout ("Subject: " ++ py_str subject))
       (emit (Stdout ("Received: " ++ str_datetime d)) s))
  = (Ok attachments, s2) ->
  truthy attachments = false
  \/ (truthy attachments = true
      /\ exists attachment,
          py_index0 attachments = Ok attachment /\ truthy attachment = false) ->
  process_item item processed_items s = (Ok processed_items, s2)
  /\ for_items (item :: rest) processed_items s = for_items rest processed_items s2.
Proof.
  intros Hreceived Hd Hsubject Hid Hlist Hnone.
  assert (Hitem : process_item item processed_items s = (Ok processed_items, s2)).
  { unfold process_item. rewrite bind_get_self_eq.
    rewrite (bind_lift_ok _ _ _ _ Hreceived), (bind_lift_ok _ _ _ _ Hd), bind_print_eq.
    rewrite (bind_lift_ok _ _ _ _ Hsubject), bind_print_eq.
    rewrite (bind_lift_ok _ _ _ _ Hid). cbv zeta.
    rewrite (bind_run_ok _ _ _ _ _ Hlist).
    destruct Hnone as [Hnone|(Hsome & attachment & Hfirst & Hempty)].
    - rewrite Hnone. reflexivity.
    - rewrite Hsome, (bind_lift_ok _ _ _ _ Hfirst), Hempty. reflexivity. }
  split; [exact Hitem|]. cbn [for_items]. apply (bind_run_ok _ _ _ _ _ Hitem).
Qed.

(** X10.  A message whose first attachment decodes to bytes that are not
    empty is recorded: the mapping gets the bytes under the message
    identifier, in place when the identifier is a key already and at the end
    otherwise, and two lines are printed.  An identifier that cannot be a
    key (a list or an object) raises [TypeError] instead. *)
Theorem process_item_records
        item processed_items s received d subject id
        attachments s2 attachment name content_type data s4 :
  py_getitem item "receivedDateTime" = Ok received ->
  datetime_strptime received "%Y-%m-%dT%H:%M:%SZ" = Ok d ->
  py_getitem item "subject" = Ok subject ->
  py_getitem item "id" = Ok id ->
  api_get_request (attachments_url (self s) id)
    (emit (Stdout ("Subject: " ++ py_str subject))
       (emit (Stdout ("Received: " ++ str_datetime d)) s))
  = (Ok attachments, s2) ->
  truthy attachments = true ->
  py_index0 attachments = Ok attachment ->
  truthy attachment = true ->
  py_getitem attachment "name" = Ok name ->
  py_getitem attachment "contentType" = Ok content_type ->
  get_dmarc_xml attachment
    (emit (Stdout ("Content type: " ++ py_str content_type))
       (emit (Stdout ("Name: " ++ py_str name)) s2))
  = (Ok (Some data), s4) ->
  data <> [] ->
  process_item item processed_items s
  = if hashable id then
      (Ok (dict_set processed_items id data),
       emit (Stdout (str_bytes data)) (emit (Stdout "Attachment data base64:") s4))
    else (Raise TypeError, s4).
Proof.
  intros Hreceived Hd Hsubject Hid Hlist Hsome Hfirst Hatt Hname Htype Hxml Hdata.
  unfold process_item. rewrite bind_get_self_eq.
  rewrite (bind_lift_ok _ _ _ _ Hreceived), (bind_lift_ok _ _ _ _ Hd), bind_print_eq.
  rewrite (bind_lift_ok _ _ _ _ Hsubject), bind_print_eq.
  rewrite (bind_lift_ok _ _ _ _ Hid). cbv zeta.
  rewrite (bind_run_ok _ _ _ _ _ Hlist), Hsome.
  rewrite (bind_lift_ok _ _ _ _ Hfirst), Hatt.
  rewrite (bind_lift_ok _ _ _ _ Hname), bind_print_eq.
  rewrite (bind_lift_ok _ _ _ _ Htype), bind_print_eq.
  rewrite (bind_run_ok _ _ _ _ _ Hxml).
  destruct data as [|b data]; [destruct (Hdata eq_refl)|].
  rewrite (bind_lift_ok _ _ _ _ Hid). unfold py_setitem.
  destruct (hashable id); reflexivity.
Qed.

(** X11.  A message without [receivedDateTime], or with one that
    [strptime] rejects, stops the loop: the exception leaves
    [process_item] and the loop before anything is printed or requested, and
    the messages after it are not looked at. *)
Theorem process_item_bad_date item rest processed_items s e :
  py_getitem item "receivedDateTime" = Raise e
  \/ (exists received,
         py_getitem item "receivedDateTime" = Ok received
         /\ datetime_strptime received "%Y-%m-%dT%H:%M:%SZ" = Raise e) ->
  process_item item processed_items s = (Raise e, s)
  /\ for_items (item :: rest) processed_items s = (Raise e, s).
Proof.
  intros Hbad.
  assert (Hitem : process_item item processed_items s = (Raise e, s)).
  { unfold process_item. rewrite bind_get_self_eq.
    destruct Hbad as [Hmissing|(received & Hreceived & Hd)].
    - unfold bind, lift. rewrite Hmissing. reflexivity.
    - rewrite (bind_lift_ok _ _ _ _ Hreceived). unfold bind, lift. rewrite Hd.
      reflexivity. }
  split; [exact Hitem|]. cbn [for_items]. unfold bind. rewrite Hitem. reflexivity.
Qed.

(** X12.  Without a token [delete_mail_items] sends nothing: it prints the
    failure line once for each identifier and returns. *)
Theorem delete_mail_items_without_token items s :
  truthy (_token (self s)) = false ->
  delete_mail_items items s
  = (Ok tt,
     mkState (self s)
             (trace s ++ repeat (Stdout delete_failure_line) (length items))).
Proof.
  revert s. induction items as [|id rest IH]; intros s Htoken.
  - simpl. rewrite app_nil_r. destruct s; reflexivity.
  - cbn [delete_mail_items]. rewrite bind_get_self_eq. cbv zeta.
    unfold bind at 1, api_delete_request. rewrite bind_get_self_eq, Htoken.
    cbn [negb ret]. rewrite bind_print_eq.
    rewrite (IH (emit (Stdout delete_failure_line) s) Htoken).
    unfold emit. cbn [self trace length repeat]. rewrite <- app_assoc. reflexivity.
Qed.

(** X13.  When [process_dmarc_mail_items] raises, [main] raises the same
    exception at once: nothing is printed after it, and no message is
    deleted. *)
Theorem main_failed_run_deletes_nothing s e s1 :
  process_dmarc_mail_items s = (Raise e, s1) ->
  main_graph s = (Raise e, s1)
  /\ deletions (trace s1) = deletions (trace s).
Proof.
  intros Hrun. split.
  - unfold main_graph, bind. rewrite Hrun. reflexivity.
  - pose proof (same_deletions_process s) as Hsame. rewrite Hrun in Hsame.
    exact Hsame.
Qed.

End Loop.

(** ** More frames: what the requests of a run are *)

Ltac framed known :=
  repeat first
    [ known
    | apply preserves_ret; [assumption]
    | apply preserves_lift; [assumption]
    | apply preserves_get_self; [assumption]
    | apply preserves_print; [assumption]
    | apply preserves_bind; [assumption| |intros ?]
    | apply preserves_try_except; [assumption| |intros ?]
    | match goal with
      | |- preserves _ (if ?b then _ else _) => destruct b
      | |- preserves _ (match ?x with _ => _ end) => destruct x
      end
    | progress cbv zeta ].

(** The goal relates a state to what a computation makes of it. *)
Ltac as_preserved R :=
  match goal with
  | |- R ?s (snd (?c ?s)) => apply (fun H : preserves R c => H s)
  end.

Lemma gets_app tr1 tr2 : gets (tr1 ++ tr2) = (gets tr1 + gets tr2)%nat.
Proof.
  induction tr1 as [|[[]| |] tr1 IH]; simpl; rewrite ?IH; reflexivity.
Qed.

Lemma dict_set_keys (P : json -> Prop) d key data :
  Forall (fun entry => P (fst entry)) d -> P key ->
  Forall (fun entry => P (fst entry)) (dict_set d key data).
Proof.
  intros Hd Hkey. induction Hd as [|[k v] d Hk Hd IH]; simpl.
  - constructor; [exact Hkey|constructor].
  - destruct (py_key_eqb k key); constructor; assumption.
Qed.

Lemma dict_set_distinct_keys d key data :
  distinct_keys d -> distinct_keys (dict_set d key data).
Proof.
  induction d as [|[k v] d IH]; simpl.
  - intros _. split; [constructor|exact I].
  - intros [Hk Hd]. destruct (py_key_eqb k key) eqn:E; simpl.
    + split; assumption.
    + split; [|exact (IH Hd)].
      apply (dict_set_keys (fun x => py_key_eqb k x = false)); assumption.
Qed.

Section Requests.

Context {lib : PyLib} {world : World}.

Lemma process_item_one_entry_more item processed_items :
  yields (one_entry_more processed_items) (process_item item processed_items).
Proof.
  unfold process_item.
  repeat (apply yields_bind; intros ?).
  destruct (truthy _); [|apply yields_ret; left; reflexivity].
  apply yields_bind; intros attachment.
  destruct (truthy attachment); [|apply yields_ret; left; reflexivity].
  repeat (apply yields_bind; intros ?).
  match goal with |- yields _ (match ?x with _ => _ end) =>
    destruct x as [[|b data]|] end; try (apply yields_ret; left; reflexivity).
  apply yields_bind; intros key.
  apply yields_bind_lift. intros d' Hset.
  do 2 (apply yields_bind; intros ?). apply yields_ret.
  unfold py_setitem in Hset. destruct (hashable key); [|discriminate].
  injection Hset as <-. right. exists key, (b :: data). split; [discriminate|reflexivity].
Qed.

Lemma for_items_distinct_keys items processed_items :
  distinct_keys processed_items ->
  yields distinct_keys (for_items items processed_items).
Proof.
  revert processed_items. induction items as [|item rest IH]; intros d Hd.
  - apply yields_ret, Hd.
  - cbn [for_items]. intros s d2 s2 Hrun.
    apply bind_ok_inv in Hrun as (d1 & s1 & Hitem & Hrest).
    apply (IH d1) in Hrest; [exact Hrest|].
    destruct (process_item_one_entry_more _ _ _ _ _ Hitem) as [->|(key & data & _ & ->)];
      [exact Hd|apply dict_set_distinct_keys, Hd].
Qed.

(** X14.  The mapping [process_dmarc_mail_items] returns has no two keys
    that are equal as dictionary keys: messages that share an identifier
    share one entry, so [main] asks at most once for the deletion of each. *)
Theorem process_distinct_keys s items s' :
  process_dmarc_mail_items s = (Ok items, s') -> distinct_keys items.
Proof.
  intros Hrun. unfold process_dmarc_mail_items in Hrun.
  apply bind_ok_inv in Hrun as (? & ? & _ & Hrun).
  apply bind_ok_inv in Hrun as (? & ? & _ & Hrun). cbv zeta in Hrun.
  apply bind_ok_inv in Hrun as (? & ? & _ & Hrun).
  apply bind_ok_inv in Hrun as (listed & ? & _ & Hrun).
  apply (for_items_distinct_keys listed [] I _ _ _ Hrun).
Qed.

Lemma same_self_process_item item processed_items s :
  self (snd (process_item item processed_items s)) = self s.
Proof.
  apply (preserves_process_item same_self); unfold same_self; try reflexivity.
  intros s1 s2 s3 H12 H23. congruence.
Qed.

Lemma process_item_one_listing item processed_items s d' s' :
  truthy (_token (self s)) = true ->
  process_item item processed_items s = (Ok d', s') ->
  gets (trace s') = S (gets (trace s)).
Proof.
  intros Htoken Hrun. unfold process_item in Hrun.
  rewrite bind_get_self_eq in Hrun.
  apply bind_ok_inv in Hrun as (received & s0 & [= _ <-] & Hrun).
  apply bind_ok_inv in Hrun as (d & s0 & [= _ <-] & Hrun).
  rewrite bind_print_eq in Hrun.
  apply bind_ok_inv in Hrun as (subject & s0 & [= _ <-] & Hrun).
  rewrite bind_print_eq in Hrun.
  apply bind_ok_inv in Hrun as (id & s0 & [= _ <-] & Hrun). cbv zeta in Hrun.
  apply bind_ok_inv in Hrun as (attachments & s2 & Hlist & Hrun).
  assert (R_refl : forall x, same_gets x x) by reflexivity.
  assert (R_trans : forall x y z, same_gets x y -> same_gets y z -> same_gets x z)
    by (unfold same_gets; intros; congruence).
  assert (R_stdout : forall line x, same_gets x (emit (Stdout line) x)).
  { intros line x. unfold same_gets, emit. cbn [trace]. rewrite gets_app. simpl. lia. }
  match type of Hrun with
  | ?rest s2 = _ => assert (Hrest : same_gets s2 (snd (rest s2)))
  end.
  { as_preserved same_gets.
    framed ltac:(apply (preserves_get_dmarc_xml same_gets); assumption). }
  rewrite Hrun in Hrest. unfold same_gets in Hrest. cbn [snd] in Hrest.
  rewrite Hrest.
  rewrite api_get_request_answer in Hlist by exact Htoken. cbv zeta in Hlist.
  assert (Hs2 : s2 = emit (Request (GET (attachments_url (self s) id)
                                        (authorization (self s))))
                      (emit (Stdout ("Subject: " ++ py_str subject))
                         (emit (Stdout ("Received: " ++ str_datetime d)) s))).
  { destruct (status_code _ =? 200); injection Hlist as _ <-; reflexivity. }
  rewrite Hs2. unfold emit. cbn [trace]. rewrite !gets_app. simpl. lia.
Qed.

(** X15.  With a token held, a run of the loop that returns has requested
    the attachment listing once for each message, and nothing else by GET:
    no second page, and no request for the attachments after the first. *)
Theorem for_items_one_listing_each items processed_items s d' s' :
  truthy (_token (self s)) = true ->
  for_items items processed_items s = (Ok d', s') ->
  gets (trace s') = (gets (trace s) + length items)%nat.
Proof.
  revert processed_items s. induction items as [|item rest IH]; intros d s Htoken Hrun.
  - injection Hrun as _ <-. simpl. lia.
  - cbn [for_items] in Hrun.
    apply bind_ok_inv in Hrun as (d1 & s1 & Hitem & Hrest).
    pose proof (process_item_one_listing _ _ _ _ _ Htoken Hitem) as Hone.
    pose proof (same_self_process_item item d s) as Hself.
    rewrite Hitem in Hself. cbn [snd] in Hself. rewrite <- Hself in Htoken.
    rewrite (IH d1 s1 Htoken Hrest), Hone. simpl. lia.
Qed.

End Requests.

Lemma extends_refl s : extends s s.
Proof. exists []. rewrite app_nil_r. reflexivity. Qed.

Lemma extends_trans s1 s2 s3 : extends s1 s2 -> extends s2 s3 -> extends s1 s3.
Proof.
  intros (a & Ha) (b & Hb). exists (a ++ b)%list. rewrite Hb, Ha, app_assoc.
  reflexivity.
Qed.

Lemma extends_emit e s : extends s (emit e s).
Proof. exists [e]. reflexivity. Qed.

Section Listing.

Context {lib : PyLib} {world : World}.

Lemma get_token_requests_le s :
  (token_requests (trace (snd (get_token s))) <= S (token_requests (trace s)))%nat.
Proof.
  unfold get_token. rewrite bind_get_self_eq.
  destruct (is_None (_token (self s))); [rewrite fresh_token_requests; lia|].
  unfold bind at 1, lift at 1.
  destruct (datetime_add _ _); [|cbn [snd]; lia].
  unfold bind at 1, datetime_now.
  destruct (_ >? _).
  - rewrite fresh_token_requests. unfold emit. cbn [trace].
    rewrite token_requests_app. simpl. lia.
  - unfold ret, emit. cbn [snd trace]. rewrite token_requests_app. simpl. lia.
Qed.

Lemma same_token_requests_emit e s :
  (forall url data, e <> Request (POST url data)) ->
  same_token_requests s (emit e s).
Proof.
  intros He. unfold same_token_requests, emit. cbn [trace].
  rewrite token_requests_app.
  destruct e as [[]| |]; simpl; try lia. destruct (He url data eq_refl).
Qed.

(** X16.  [process_dmarc_mail_items] sends no DELETE, and at most one token
    request: what follows [get_token] posts nothing. *)
Theorem process_requests s :
  deletions (trace (snd (process_dmarc_mail_items s))) = deletions (trace s)
  /\ (token_requests (trace (snd (process_dmarc_mail_items s)))
      <= S (token_requests (trace s)))%nat.
Proof.
  split; [apply same_deletions_process|].
  assert (R_refl : forall x, same_token_requests x x) by reflexivity.
  assert (R_trans : forall x y z, same_token_requests x y ->
                                  same_token_requests y z ->
                                  same_token_requests x z)
    by (unfold same_token_requests; intros; congruence).
  assert (R_stdout : forall line x, same_token_requests x (emit (Stdout line) x))
    by (intros; apply same_token_requests_emit; discriminate).
  assert (R_now : forall x, same_token_requests x (emit Now x))
    by (intros; apply same_token_requests_emit; discriminate).
  assert (R_get : forall url headers x,
             same_token_requests x (emit (Request (GET url headers)) x))
    by (intros; apply same_token_requests_emit; discriminate).
  assert (R_modify : forall f x,
             same_token_requests x (mkState (f (self x)) (trace x)))
    by reflexivity.
  assert (Hfolder : same_token_requests (snd (get_token s)) (snd (get_folder_id s))).
  { unfold get_folder_id, bind at 1.
    destruct (get_token s) as [[[]|e] s1]; cbn [snd]; [|reflexivity].
    as_preserved same_token_requests.
    framed ltac:(first [ apply (preserves_api_get_request same_token_requests);
                         assumption
                       | apply (preserves_modify_self same_token_requests);
                         assumption ]). }
  assert (Hitems : same_token_requests (snd (get_folder_id s))
                                       (snd (process_dmarc_mail_items s))).
  { unfold process_dmarc_mail_items, bind at 1.
    destruct (get_folder_id s) as [[[]|e] s1]; cbn [snd]; [|reflexivity].
    as_preserved same_token_requests.
    framed ltac:(first [ apply (preserves_api_get_request same_token_requests);
                         assumption
                       | apply (preserves_for_items same_token_requests);
                         assumption ]). }
  unfold same_token_requests in Hfolder, Hitems. rewrite Hitems, Hfolder.
  apply get_token_requests_le.
Qed.

Lemma scan_folders_app target pre rest folder_id :
  scan_folders target (pre ++ rest) folder_id
  = rbind (scan_folders target pre folder_id)
          (fun found => scan_folders target rest found).
Proof.
  revert folder_id. induction pre as [|folder pre IH]; intros folder_id; [reflexivity|].
  cbn [app scan_folders].
  destruct (py_getitem folder "displayName") as [name|]; [|reflexivity].
  cbn [rbind]. destruct (py_eq_str name target); [|apply IH].
  destruct (py_getitem folder "id"); [apply IH|reflexivity].
Qed.

(** X17.  A folder of the listing without [displayName], or one that bears
    the configured name and has no [id], makes [get_folder_id] raise after
    the listing is fetched: the folders after it are not looked at and
    [_folder_id] is not set, even when an earlier folder matched. *)
Theorem get_folder_id_malformed s s1 body pre bad post e :
  get_token s = (Ok tt, s1) ->
  truthy (_token (self s1)) = true ->
  truthy (_folder_id (self s1)) = false ->
  let request := GET (folders_url (self s1)) (authorization (self s1)) in
  status_code (respond (trace s1) request) = 200 ->
  loads_text (respond (trace s1) request) = Ok body ->
  py_getitem body "value" = Ok (JArr (pre ++ bad :: post)) ->
  Forall is_folder pre ->
  py_getitem bad "displayName" = Raise e
  \/ (exists name,
         py_getitem bad "displayName" = Ok name
         /\ py_eq_str name (mailbox_folder (self s1)) = true
         /\ py_getitem bad "id" = Raise e) ->
  get_folder_id s = (Raise e, emit (Request request) s1).
Proof.
  intros Htok Htoken Hcached request Hstatus Hbody Hvalue Hpre Hbad.
  unfold get_folder_id. rewrite (bind_run_ok _ _ _ _ _ Htok).
  rewrite bind_get_self_eq, Htoken, Hcached. cbn [negb orb]. cbv zeta.
  unfold bind at 1. rewrite (api_get_request_answer _ _ Htoken). cbv zeta.
  fold request. rewrite Hstatus, Hbody. cbn [Z.eqb Pos.eqb rbind].
  rewrite Hvalue. unfold bind, lift, py_iter.
  rewrite scan_folders_app, (scan_folders_spec _ _ _ Hpre). cbn [rbind scan_folders].
  destruct Hbad as [Hname|(name & Hname & Hmatch & Hid)]; rewrite Hname; cbn [rbind].
  - reflexivity.
  - rewrite Hmatch, Hid. reflexivity.
Qed.

(** X18.  A folder that is not found stops nothing: with [_folder_id] left
    [None], [process_dmarc_mail_items] goes on to request the messages of
    the folder whose identifier is [str(None)]. *)
Theorem process_folder_not_found s s1 :
  get_folder_id s = (Ok tt, s1) ->
  truthy (_token (self s1)) = true ->
  _folder_id (self s1) = JNull ->
  exists added,
    trace (snd (process_dmarc_mail_items s))
    = (trace s1
       ++ Request (GET (GRAPH_URL_format
                          ("/v1.0/users/" ++ mailbox (self s1) ++ "/mailFolders/"
                           ++ py_repr JNull ++ "/messages"))
                       (authorization (self s1)))
       :: added)%list.
Proof.
  intros Hfolder Htoken Hnone.
  unfold process_dmarc_mail_items. rewrite (bind_run_ok _ _ _ _ _ Hfolder).
  rewrite bind_get_self_eq. cbv zeta.
  assert (Hurl : messages_url (self s1)
                 = GRAPH_URL_format
                     ("/v1.0/users/" ++ mailbox (self s1) ++ "/mailFolders/"
                      ++ py_repr JNull ++ "/messages"))
    by (unfold messages_url; rewrite Hnone; reflexivity).
  rewrite <- Hurl.
  set (request := GET (messages_url (self s1)) (authorization (self s1))).
  assert (Hrest : forall value,
             extends (emit (Request request) s1)
                     (snd ((items <- lift (py_iter value) ;; for_items items [])
                             (emit (Request request) s1)))).
  { intros value. as_preserved extends.
    pose proof extends_refl as R_refl. pose proof extends_trans as R_trans.
    framed ltac:(apply (preserves_for_items extends); auto using extends_emit). }
  unfold bind at 1. rewrite (api_get_request_answer _ _ Htoken). cbv zeta.
  fold request.
  assert (Hgrown : forall r : result pydict * state,
             extends (emit (Request request) s1) (snd r) ->
             exists added, trace (snd r) = (trace s1 ++ Request request :: added)%list).
  { intros r (added & Hadded). exists added. rewrite Hadded. unfold emit.
    cbn [trace]. rewrite <- app_assoc. reflexivity. }
  destruct (status_code _ =? 200).
  - destruct (rbind _ _) as [value|err]; [apply Hgrown, Hrest|].
    apply Hgrown, extends_refl.
  - apply Hgrown, Hrest.
Qed.

End Listing.

(** ** The further properties on the scenarios *)

Section MoreScenarios.

Import Fixture.

Local Existing Instance lib.


Lemma main_configuration_errors_witness :
  main (world:=world) (Ok config_no_secret) [] = (Raise KeyError, [])
  /\ main (world:=world) (Ok config_percent) []
     = (Raise (OtherError "configparser.InterpolationSyntaxError"), [])
  /\ main (world:=world) (Ok (fun _ => None)) [] = (Raise KeyError, [])
  /\ main (world:=world)
          (Raise (OtherError "configparser.MissingSectionHeaderError")) []
     = (Raise (OtherError "configparser.MissingSectionHeaderError"), []).
Proof.
  split; [|split; [|split]].
  - refine (proj2 (proj1 (proj2 (proj2 (main_configuration_errors (world:=world)
                                          (Ok config_no_secret) [])))
                    config_no_secret settings_no_secret
                    [ "clientId" ] "clientSecret"
                    [ "tenantId"; "mailbox"; "mailbox_folder" ] KeyError
                    eq_refl eq_refl eq_refl _ (or_introl (conj eq_refl eq_refl)))).
    constructor; [eexists; reflexivity|constructor].
  - refine (proj2 (proj1 (proj2 (proj2 (main_configuration_errors (world:=world)
                                          (Ok config_percent) [])))
                    config_percent settings_percent
                    [ "clientId" ] "clientSecret"
                    [ "tenantId"; "mailbox"; "mailbox_folder" ] _
                    eq_refl eq_refl eq_refl _ (or_intror eq_refl))).
    constructor; [eexists; reflexivity|constructor].
  - exact (proj1 (proj2 (main_configuration_errors (world:=world)
                           (Ok (fun _ => None)) []))
                 (fun _ => None) eq_refl eq_refl).
  - exact (proj1 (main_configuration_errors (world:=world)
                    (Raise (OtherError "configparser.MissingSectionHeaderError")) [])
                 _ eq_refl).
Defined.

Lemma get_token_first_witness :
  get_token (world:=world) start
  = (Ok tt,
     mkState (mkGraph (JStr "eyJ0eXAi") (Some 1714548600000000) JNull
                      "3f2a" "s3cr3t" "contoso" "dmarc@example.com" "DMARC")
             [ Request (token_request graph); Now ])
  /\ get_token (world:=world_long) start
     = (Raise OverflowError,
        mkState (set_token (JStr "eyJ0eXAi") graph)
                [ Request (token_request graph); Now ])
  /\ get_token (world:=world_refused) start
     = (Ok tt, mkState graph [ Request (token_request graph) ]).
Proof.
  split; [|split].
  - refine (proj1 (proj1 (get_token_first (world:=world) start eq_refl)
                     (JObj [ ("token_type", JStr "Bearer"); ("expires_in", JNum 3599);
                             ("access_token", JStr "eyJ0eXAi") ])
                     (JStr "eyJ0eXAi") 3599 eq_refl eq_refl eq_refl eq_refl) _ _);
      vm_compute; split; discriminate.
  - refine (proj2 (proj1 (get_token_first (world:=world_long) start eq_refl)
                     (JObj [ ("access_token", JStr "eyJ0eXAi");
                             ("expires_in", JNum 1000000000000) ])
                     (JStr "eyJ0eXAi") 1000000000000
                     eq_refl eq_refl eq_refl eq_refl) (or_intror _)).
    vm_compute. intros [_ Hmax]. apply Hmax. reflexivity.
  - refine (proj2 (get_token_first (world:=world_refused) start eq_refl) _).
    vm_compute. discriminate.
Defined.

Lemma get_token_expiry_witness :
  get_token (world:=world_no_expiry) start
  = (Raise KeyError,
     mkState (set_token (JStr "eyJ0eXAi") graph) [ Request (token_request graph); Now ])
  /\ fst (get_token (world:=world_no_expiry)
            (snd (get_token (world:=world_no_expiry) start)))
     = Raise TypeError.
Proof.
  split.
  - exact (proj2 (proj2 (get_token_expiry (world:=world_no_expiry) start))
                 (JObj [ ("access_token", JStr "eyJ0eXAi") ]) (JStr "eyJ0eXAi")
                 eq_refl eq_refl eq_refl eq_refl eq_refl).
  - rewrite (proj1 (proj2 (get_token_expiry (world:=world_no_expiry)
                             (snd (get_token (world:=world_no_expiry) start))))
               eq_refl eq_refl).
    reflexivity.
Defined.

Lemma process_without_authentication_witness :
  process_dmarc_mail_items (world:=world_refused) start
  = (Raise TypeError, mkState graph [ Request (token_request graph) ]).
Proof.
  refine (proj2 (process_without_authentication (world:=world_refused) start
                   eq_refl _)).
  vm_compute. discriminate.
Defined.

Lemma get_folder_id_cached_witness :
  gets (trace (snd (get_folder_id (world:=world) ready))) = 0%nat
  /\ _folder_id (self (snd (get_folder_id (world:=world) ready))) = JStr "AAMk-dmarc".
Proof.
  split.
  - rewrite (proj1 (get_folder_id_cached (world:=world) ready eq_refl)).
    reflexivity.
  - exact (proj2 (get_folder_id_cached (world:=world) ready eq_refl)).
Defined.


Lemma get_dmarc_xml_raises_witness :
  get_dmarc_xml attachment_item start = (Raise KeyError, start)
  /\ get_dmarc_xml attachment_not_b64 start
     = (Raise (OtherError "binascii.Error"), start).
Proof.
  split.
  - exact (proj1 (proj2 (proj2 (proj2 (get_dmarc_xml_raises attachment_item start
                                         KeyError))
                           (JStr "Fwd: report.gz") (JStr "gz") eq_refl eq_refl)
                    JNull eq_refl) eq_refl).
  - exact (proj2 (proj2 (proj2 (proj2 (get_dmarc_xml_raises attachment_not_b64 start
                                         (OtherError "binascii.Error")))
                           (JStr "report.xml.gz") (JStr "gz") eq_refl eq_refl)
                    (JStr "application/gzip") eq_refl)
                 (JStr "abc") eq_refl eq_refl).
Defined.

Lemma process_item_no_attachment_witness :
  exists s2,
    process_item (world:=world_empty) message_empty [ (JStr "msg-1", xml) ] ready
    = (Ok [ (JStr "msg-1", xml) ], s2).
Proof.
  eexists.
  refine (proj1 (process_item_no_attachment (world:=world_empty)
                   message_empty [] [ (JStr "msg-1", xml) ] ready
                   (JStr "2024-05-01T06:30:00Z") 1714545000000000
                   (JStr "Report domain: example.net") (JStr "msg-3")
                   (JArr []) _ eq_refl eq_refl eq_refl eq_refl eq_refl
                   (or_introl eq_refl))).
Defined.

Lemma process_item_records_witness :
  exists s',
    process_item (world:=world) (message "msg-1" "Report domain: example.com")
                 [] ready
    = (Ok [ (JStr "msg-1", xml) ], s').
Proof.
  eexists.
  refine (process_item_records (world:=world)
            (message "msg-1" "Report domain: example.com") [] ready
            (JStr "2024-05-01T06:30:00Z") 1714545000000000
            (JStr "Report domain: example.com") (JStr "msg-1")
            (JArr [attachment_gz]) _ attachment_gz
            (JStr "google.com!example.com!1714435200!1714521599.xml.gz")
            (JStr "application/octet-stream") xml _
            eq_refl eq_refl eq_refl eq_refl eq_refl eq_refl eq_refl eq_refl
            eq_refl eq_refl eq_refl _).
  discriminate.
Defined.

Lemma process_item_bad_date_witness :
  for_items (world:=world) (message_bad_date :: inbox) [] ready
  = (Raise ValueError, ready).
Proof.
  exact (proj2 (process_item_bad_date (world:=world) message_bad_date inbox []
                  ready ValueError
                  (or_intror (ex_intro _ (JStr "2024-05-01T06:30:00.5Z")
                                       (conj eq_refl eq_refl))))).
Defined.

Lemma delete_mail_items_without_token_witness :
  delete_mail_items (world:=world) [ JStr "msg-1"; JStr "msg-4" ] start
  = (Ok tt, mkState graph [ Stdout delete_failure_line; Stdout delete_failure_line ]).
Proof.
  exact (delete_mail_items_without_token (world:=world)
           [ JStr "msg-1"; JStr "msg-4" ] start eq_refl).
Defined.

Lemma main_failed_run_deletes_nothing_witness :
  fst (main_graph (world:=world_down) start) = Raise TypeError
  /\ deletions (trace (snd (process_dmarc_mail_items (world:=world_down) start))) = [].
Proof.
  assert (Hrun : process_dmarc_mail_items (world:=world_down) start
                 = (Raise TypeError,
                    snd (process_dmarc_mail_items (world:=world_down) start)))
    by (vm_compute; reflexivity).
  destruct (main_failed_run_deletes_nothing (world:=world_down) start _ _ Hrun)
    as [Hmain Hdeleted].
  split; [rewrite Hmain; reflexivity|exact Hdeleted].
Defined.

Lemma process_distinct_keys_witness :
  distinct_keys [ (JStr "msg-1", xml); (JStr "msg-4", xml) ].
Proof.
  apply (process_distinct_keys (world:=world) start _
           (snd (process_dmarc_mail_items (world:=world) start))).
  vm_compute. reflexivity.
Defined.

Lemma for_items_one_listing_each_witness :
  gets (trace (snd (for_items (world:=world) inbox [] ready))) = 4%nat.
Proof.
  assert (Hrun : for_items (world:=world) inbox [] ready
                 = (Ok [ (JStr "msg-1", xml); (JStr "msg-4", xml) ],
                    snd (for_items (world:=world) inbox [] ready)))
    by (vm_compute; reflexivity).
  exact (for_items_one_listing_each (world:=world) inbox [] ready _ _ eq_refl Hrun).
Defined.

Lemma get_folder_id_malformed_witness :
  fst (get_folder_id (world:=world_malformed) start) = Raise KeyError
  /\ _folder_id (self (snd (get_folder_id (world:=world_malformed) start))) = JNull.
Proof.
  assert (Hrun : get_folder_id (world:=world_malformed) start
                 = (Raise KeyError,
                    emit (Request (GET (folders_url graph)
                                       [ ("Authorization", "Bearer eyJ0eXAi") ]))
                         (snd (get_token (world:=world_malformed) start)))).
  { refine (get_folder_id_malformed (world:=world_malformed) start
              (snd (get_token (world:=world_malformed) start))
              (JObj [ ("value", JArr _) ])
              [ JObj [ ("id", JStr "AAMk-inbox"); ("displayName", JStr "Inbox") ] ]
              (JObj [ ("id", JStr "AAMk-draft") ])
              [ JObj [ ("id", JStr "AAMk-dmarc"); ("displayName", JStr "DMARC") ] ]
              KeyError eq_refl eq_refl eq_refl eq_refl eq_refl eq_refl _
              (or_introl eq_refl)).
    repeat (constructor; [eexists; eexists; split; reflexivity|]). constructor. }
  rewrite Hrun. split; reflexivity.
Defined.

Lemma process_folder_not_found_witness :
  exists added,
    trace (snd (process_dmarc_mail_items (world:=world_no_folder) start))
    = (trace (snd (get_folder_id (world:=world_no_folder) start))
       ++ Request (GET "https://graph.microsoft.com/v1.0/users/dmarc@example.com/mailFolders/None/messages"
                       [ ("Authorization", "Bearer eyJ0eXAi") ])
       :: added)%list.
Proof.
  exact (process_folder_not_found (world:=world_no_folder) start
           (snd (get_folder_id (world:=world_no_folder) start))
           eq_refl eq_refl eq_refl).
Defined.

End MoreScenarios.
